(** * gcop-rs Python wrapper: platform resolution, binary cache, dispatch

    A shallow embedding of [python/src/gcop_rs/__init__.py].  The module
    detects the host platform, downloads the matching release binary into a
    per-user cache directory, and runs it with the wrapper's arguments.

    Python values are modelled as follows.
    - [str] is [string]; the host strings the module inspects (OS name,
      machine name, version marker) are ASCII, and [str.lower] / [str.strip]
      are modelled on ASCII.
    - a [pathlib.Path] is its anchor and its name components;
    - exceptions are values carrying their class, message and [__cause__];
      a function that may raise returns an [Outcome];
    - the file system, the network, the diagnostic stream and the child
      processes started so far form an explicit [World] threaded through every
      effectful call. *)

From stdpp Require Import base option list strings gmap.
From Stdlib Require Import ZArith Ascii String Lia.

Local Open Scope string_scope.
Local Open Scope Z_scope.

(** ** Python built-ins used by the module *)

Module Py.

(** The characters of ASCII text. *)
Definition is_ascii_char (c : ascii) : bool := (nat_of_ascii c <? 128)%nat.

Fixpoint is_ascii (s : string) : bool :=
  match s with
  | EmptyString => true
  | String c s' => is_ascii_char c && is_ascii s'
  end.

(** [str.lower] restricted to ASCII: 'A'..'Z' are shifted to 'a'..'z'. *)
Definition lower_ascii (c : ascii) : ascii :=
  let n := nat_of_ascii c in
  if ((65 <=? n) && (n <=? 90))%nat then ascii_of_nat (n + 32) else c.

Fixpoint lower (s : string) : string :=
  match s with
  | EmptyString => EmptyString
  | String c s' => String (lower_ascii c) (lower s')
  end.

(** [str.isspace] on ASCII: TAB, LF, VT, FF, CR, the separators FS, GS, RS,
    US, and SPACE.  The white space of Unicode beyond ASCII is not
    modelled: what is stated below of a text that is not the expected
    version is stated of ASCII text. *)
Definition isspace (c : ascii) : bool :=
  let n := nat_of_ascii c in
  (((9 <=? n) && (n <=? 13)) || ((28 <=? n) && (n <=? 32)))%nat.

Fixpoint lstrip (s : string) : string :=
  match s with
  | EmptyString => EmptyString
  | String c s' => if isspace c then lstrip s' else s
  end.

Fixpoint rstrip (s : string) : string :=
  match s with
  | EmptyString => EmptyString
  | String c s' =>
      match rstrip s' with
      | EmptyString => if isspace c then EmptyString else String c EmptyString
      | r => String c r
      end
  end.

(** [s.strip()] with no argument. *)
Definition strip (s : string) : string := rstrip (lstrip s).

(** Exception classes that occur in the module or in the library calls it
    makes.  [KeyboardInterrupt] and [SystemExit] derive from
    [BaseException] only; all others derive from [Exception]. *)
Inductive exn_class : Set :=
| RuntimeError
| OSError
| FileExistsError
| FileNotFoundError
| NotADirectoryError
| IsADirectoryError
| URLError
| HTTPError
| ContentTooShortError
| KeyboardInterrupt
| SystemExit.

(** [Exn cls msg] is [cls(msg)]; [ExnFrom cls msg e] is the exception raised by
    [raise cls(msg) from e]. *)
Inductive exn : Set :=
| Exn (cls : exn_class) (msg : string)
| ExnFrom (cls : exn_class) (msg : string) (cause : exn).

Definition exn_cls (e : exn) : exn_class :=
  match e with Exn c _ | ExnFrom c _ _ => c end.
(** [str(e)] *)
Definition exn_str (e : exn) : string :=
  match e with Exn _ m | ExnFrom _ m _ => m end.
(** [e.__cause__] *)
Definition exn_cause (e : exn) : option exn :=
  match e with Exn _ _ => None | ExnFrom _ _ c => Some c end.

(** [isinstance(e, Exception)], the test of an [except Exception] clause. *)
Definition is_Exception (e : exn) : bool :=
  match exn_cls e with
  | KeyboardInterrupt | SystemExit => false
  | _ => true
  end.

(** [isinstance(e, KeyboardInterrupt)] *)
Definition is_KeyboardInterrupt (e : exn) : bool :=
  match exn_cls e with
  | KeyboardInterrupt => true
  | _ => false
  end.

(** [isinstance(e, OSError)]: the class itself or one of its subclasses. *)
Definition is_OSError (e : exn) : bool :=
  match exn_cls e with
  | OSError | FileExistsError | FileNotFoundError | NotADirectoryError
  | IsADirectoryError | URLError | HTTPError | ContentTooShortError => true
  | _ => false
  end.

(** The result of evaluating a Python expression: a value or a raised
    exception. *)
Inductive Outcome (A : Type) : Type :=
| Return (a : A)
| Raise (e : exn).
Arguments Return {A} a.
Arguments Raise {A} e.

End Py.
Export Py.

(** ** The host, as reported by [platform], [os.environ] and [pathlib] *)

(** [Path.parts] split into the anchor (drive and root, empty for a relative
    path) and the remaining names, outermost first. *)
Record Path : Set := mkPath { anchor : string; names : list string }.

(** [p / name] for a single plain name. *)
Definition path_join (p : Path) (name : string) : Path :=
  mkPath (anchor p) (names p ++ [name]).
Infix "/:" := path_join (at level 40, left associativity).

Record Host : Type := mkHost {
  (** [platform.system()] *)
  system : string;
  (** [platform.machine()] *)
  machine : string;
  (** [os.environ] *)
  environ : gmap string string;
  (** [Path.home()] *)
  home : Path;
  (** [Path(s)] for a string [s], in the path flavour of the host *)
  Path_of_str : string -> Path;
  (** [str(p)], in the path flavour of the host *)
  str_of_Path : Path -> string;
  (** [st_mode] a newly created regular file receives (type bits, and the
      creation mode masked by the umask) *)
  new_file_mode : Z;
  (** [st_mode] a newly created directory receives *)
  new_dir_mode : Z;
  (** [sys.argv] *)
  argv : list string
}.

(** ** Module constants *)

Definition __version__ : string := "0.4.2".

Definition GITHUB_RELEASE_URL : string :=
  "https://github.com/AptS-1547/gcop-rs/releases/download".

(** ** [get_binary_name] *)

Definition get_binary_name (h : Host) : Outcome (string * string) :=
  let system := lower (system h) in
  let machine := lower (machine h) in
  match
    (if (machine =? "x86_64")%string || (machine =? "amd64")%string then
       Return "amd64"
     else if (machine =? "arm64")%string || (machine =? "aarch64")%string then
       Return "arm64"
     else
       Raise (Exn RuntimeError ("Unsupported architecture: " ++ machine)))
  with
  | Raise e => Raise e
  | Return arch =>
      if (system =? "darwin")%string then
        Return ("macos-" ++ arch, "gcop-rs")
      else if (system =? "linux")%string then
        Return ("linux-" ++ arch, "gcop-rs")
      else if (system =? "windows")%string then
        Return (if (arch =? "arm64")%string then "windows-aarch64.exe"
                else "windows-amd64.exe",
                "gcop-rs.exe")
      else
        Raise (Exn RuntimeError
                 ("Unsupported operating system: " ++ system))
  end.

(** ** [get_binary_path]

    The function only computes a path: it reads the environment and the home
    directory and touches nothing. *)

Definition get_binary_path (h : Host) : Path :=
  let cache_dir :=
    if (system h =? "Windows")%string then
      match environ h !! "LOCALAPPDATA" with
      | Some v => Path_of_str h v
      | None => home h /: "AppData" /: "Local"
      end
    else if (system h =? "Darwin")%string then
      home h /: "Library" /: "Caches"
    else
      match environ h !! "XDG_CACHE_HOME" with
      | Some v => Path_of_str h v
      | None => home h /: ".cache"
      end
  in
  cache_dir /: "gcop-rs" /: "bin".

(** ** The file system *)

#[global] Instance Path_eq_dec : EqDecision Path.
Proof. solve_decision. Defined.

#[global] Instance Path_countable : Countable Path :=
  inj_countable' (fun p => (anchor p, names p))
                 (fun an => mkPath (fst an) (snd an))
                 (fun p => match p with mkPath _ _ => eq_refl end).

(** An entry is a directory or a regular file; [mode] is [st_mode]: the
    file-type bits above the twelve permission bits. *)
Inductive Node : Set :=
| Dir (mode : Z)
| File (content : string) (mode : Z).

Definition node_mode (n : Node) : Z :=
  match n with Dir m | File _ m => m end.

(** A file system maps every path with at least one name to its entry.  The
    base of a path (its anchor alone, or the current directory for a relative
    path) always exists and is a directory. *)
Abbreviation FS := (gmap Path Node).

(** [Path.parent] *)
Definition parent (p : Path) : Path :=
  mkPath (anchor p) (removelast (names p)).

(** The prefixes of the path [a, pre ++ ns] that are longer than [pre],
    outermost first. *)
Fixpoint prefixes_from (a : string) (pre ns : list string) : list Path :=
  match ns with
  | [] => []
  | n :: ns' => mkPath a (pre ++ [n]) :: prefixes_from a (pre ++ [n]) ns'
  end.

(** The prefixes of [p] that have at least one name, [p] included. *)
Definition prefixes (p : Path) : list Path :=
  prefixes_from (anchor p) [] (names p).

(** The directories the kernel walks through to reach [p]. *)
Definition ancestors (p : Path) : list Path := prefixes (parent p).

(** Path resolution: the first ancestor that is missing ([ENOENT]) or is not
    a directory ([ENOTDIR]), if there is one. *)
Fixpoint first_non_dir (fs : FS) (qs : list Path) : option exn_class :=
  match qs with
  | [] => None
  | q :: qs' =>
      match fs !! q with
      | Some (Dir _) => first_non_dir fs qs'
      | Some (File _ _) => Some NotADirectoryError
      | None => Some FileNotFoundError
      end
  end.

Definition resolve (fs : FS) (p : Path) : option exn_class :=
  first_non_dir fs (ancestors p).

(** [st_mode] reported for the base of a path. *)
Definition base_dir_mode : Z := 0x41ed.  (* 0o040755 *)

(** What [os.stat(p)] finds: an entry, or the class of the [OSError]. *)
Definition node (fs : FS) (p : Path) : exn_class + Node :=
  match names p with
  | [] => inr (Dir base_dir_mode)
  | _ =>
      match resolve fs p with
      | Some c => inl c
      | None =>
          match fs !! p with
          | Some n => inr n
          | None => inl FileNotFoundError
          end
      end
  end.

(** [Path.exists()] and [Path.is_dir()]: both answer [False] when [os.stat]
    fails. *)
Definition path_exists (fs : FS) (p : Path) : bool :=
  match node fs p with inr _ => true | inl _ => false end.

Definition is_dir (fs : FS) (p : Path) : bool :=
  match node fs p with inr (Dir _) => true | _ => false end.

(** [chmod(2)] replaces the twelve permission bits and keeps the file type. *)
Definition chmod_mode (old new : Z) : Z :=
  Z.lor (Z.land old (Z.lnot 0xfff)) (Z.land new 0xfff).  (* 0o7777 *)

Definition set_mode (n : Node) (m : Z) : Node :=
  match n with
  | Dir m0 => Dir (chmod_mode m0 m)
  | File c m0 => File c (chmod_mode m0 m)
  end.

(** [stat.S_IXUSR], [stat.S_IXGRP], [stat.S_IXOTH] *)
Definition S_IXUSR : Z := 0x40.  (* 0o100 *)
Definition S_IXGRP : Z := 0x08.  (* 0o010 *)
Definition S_IXOTH : Z := 0x01.  (* 0o001 *)

(** ** The world outside the interpreter *)

(** What one [urlretrieve] transfer does: it delivers the whole body, or it
    raises [e]; in the latter case [partial] holds what had been written to
    the target file by then, if the file had been opened at all. *)
Inductive FetchOutcome : Set :=
| Fetched (body : string)
| FetchFailed (e : exn) (partial : option string).

(** What one [subprocess.run] does: the child exits with [returncode], or the
    call raises [e] (the interrupt of the operator, or a failure to start the
    program); [reported] is the status the child had at that moment, if it
    had one. *)
Inductive RunOutcome : Set :=
| Exited (returncode : Z)
| RunRaised (e : exn) (reported : option Z).

(** The behaviour of the release host and of the downloaded program.
    [remote k url] is the outcome of a transfer of [url] made after [k]
    earlier transfers; [child cmd fs] is the outcome of running [cmd] on the
    file system [fs]. *)
Record Extern : Type := mkExtern {
  remote : nat -> string -> FetchOutcome;
  child : list string -> FS -> RunOutcome
}.

Record World : Type := mkWorld {
  (** the files and directories *)
  fs : FS;
  (** the URLs requested so far, oldest first *)
  net_log : list string;
  (** the lines written to [sys.stderr], oldest first *)
  stderr : list string;
  (** the command lines handed to [subprocess.run], oldest first *)
  spawned : list (list string)
}.

Definition set_fs (w : World) (f : FS) : World :=
  mkWorld f (net_log w) (stderr w) (spawned w).

(** An effectful computation: from a world to a value or an exception, and
    the world it leaves. *)
Definition IO (A : Type) : Type := World -> Outcome A * World.

#[global] Instance IO_ret : MRet IO := fun A a w => (Return a, w).

#[global] Instance IO_bind : MBind IO := fun A B f m w =>
  match m w with
  | (Return a, w') => f a w'
  | (Raise e, w') => (Raise e, w')
  end.

Definition raise {A : Type} (e : exn) : IO A := fun w => (Raise e, w).

(** The outcome of a call that touches nothing. *)
Definition eval {A : Type} (o : Outcome A) : IO A := fun w => (o, w).

(** [try: m  except <catches> as e: handler e] *)
Definition try_except {A : Type} (m : IO A) (catches : exn -> bool)
    (handler : exn -> IO A) : IO A := fun w =>
  match m w with
  | (Raise e, w') => if catches e then handler e w' else (Raise e, w')
  | r => r
  end.

(** [print(line, file=sys.stderr)].  The diagnostic stream is taken to accept
    every line: a stream that is closed or broken is not modelled. *)
Definition print_stderr (line : string) : IO unit := fun w =>
  (Return tt, mkWorld (fs w) (net_log w) (stderr w ++ [line]) (spawned w)).

Definition strerror (c : exn_class) : string :=
  match c with
  | FileExistsError => "[Errno 17] File exists"
  | FileNotFoundError => "[Errno 2] No such file or directory"
  | NotADirectoryError => "[Errno 20] Not a directory"
  | IsADirectoryError => "[Errno 21] Is a directory"
  | _ => "[Errno 5] Input/output error"
  end.

Section Wrapper.

Context (h : Host) (ext : Extern).

(** The [OSError] of class [c] about path [p], with the class and the text
    of a POSIX host for a path without quotes or backslashes.  The
    statements below use of it only that it is an [OSError]. *)
Definition os_error (c : exn_class) (p : Path) : exn :=
  Exn c (strerror c ++ ": '" ++ str_of_Path h p ++ "'").

(** *** Library calls on the file system *)

(** [os.mkdir(p)] *)
Definition os_mkdir (p : Path) : IO unit := fun w =>
  match names p with
  | [] => (Raise (os_error FileExistsError p), w)
  | _ =>
      match resolve (fs w) p with
      | Some c => (Raise (os_error c p), w)
      | None =>
          match fs w !! p with
          | Some _ => (Raise (os_error FileExistsError p), w)
          | None => (Return tt, set_fs w (<[p := Dir (new_dir_mode h)]> (fs w)))
          end
      end
  end.

(** [p.mkdir(parents=False, exist_ok=exist_ok)]: a missing parent is an
    error; any other [OSError] is ignored when [p] is a directory and
    [exist_ok] is set. *)
Definition mkdir_leaf (exist_ok : bool) (p : Path) : IO unit := fun w =>
  match os_mkdir p w with
  | (Raise e, w') =>
      match exn_cls e with
      | FileNotFoundError => (Raise e, w')
      | _ =>
          if is_OSError e && exist_ok && is_dir (fs w') p
          then (Return tt, w') else (Raise e, w')
      end
  | r => r
  end.

(** [p.mkdir(parents=True, exist_ok=exist_ok)] for the path with anchor [a]
    and names [rev rn]: when the parent is missing it is made first, by the
    same call with [exist_ok=True], and [p] is then made without
    [parents]. *)
Fixpoint mkdir_parents (exist_ok : bool) (a : string) (rn : list string)
    : IO unit := fun w =>
  let p := mkPath a (rev rn) in
  match os_mkdir p w with
  | (Raise e, w') =>
      match exn_cls e with
      | FileNotFoundError =>
          match rn with
          | [] => (Raise e, w')
          | _ :: rn' =>
              match mkdir_parents true a rn' w' with
              | (Return _, w'') => mkdir_leaf exist_ok p w''
              | r => r
              end
          end
      | _ =>
          if is_OSError e && exist_ok && is_dir (fs w') p
          then (Return tt, w') else (Raise e, w')
      end
  | r => r
  end.

(** [p.mkdir(parents=True, exist_ok=True)] *)
Definition Path_mkdir (p : Path) : IO unit :=
  mkdir_parents true (anchor p) (rev (names p)).

(** [p.exists()] *)
Definition Path_exists (p : Path) : IO bool := fun w =>
  (Return (path_exists (fs w) p), w).

(** [p.read_text()].  The content of a file is text: bytes that the
    encoding of the host cannot decode are not modelled (ASCII text, which
    the statements about a marker of another version assume, always
    decodes). *)
Definition read_text (p : Path) : IO string := fun w =>
  match node (fs w) p with
  | inl c => (Raise (os_error c p), w)
  | inr (Dir _) => (Raise (os_error IsADirectoryError p), w)
  | inr (File c _) => (Return c, w)
  end.

(** [open(p, "w")] followed by writing [content] and closing: an existing
    file is truncated and keeps its mode, a missing one is created. *)
Definition open_write (p : Path) (content : string) : IO unit := fun w =>
  match names p with
  | [] => (Raise (os_error IsADirectoryError p), w)
  | _ =>
      match resolve (fs w) p with
      | Some c => (Raise (os_error c p), w)
      | None =>
          match fs w !! p with
          | Some (Dir _) => (Raise (os_error IsADirectoryError p), w)
          | Some (File _ m) =>
              (Return tt, set_fs w (<[p := File content m]> (fs w)))
          | None =>
              (Return tt,
               set_fs w (<[p := File content (new_file_mode h)]> (fs w)))
          end
      end
  end.

(** [p.write_text(content)] *)
Definition write_text (p : Path) (content : string) : IO unit :=
  open_write p content.

(** [p.stat().st_mode] *)
Definition stat_st_mode (p : Path) : IO Z := fun w =>
  match node (fs w) p with
  | inl c => (Raise (os_error c p), w)
  | inr n => (Return (node_mode n), w)
  end.

(** [p.chmod(m)]; the mode of a base directory is not tracked. *)
Definition chmod (p : Path) (m : Z) : IO unit := fun w =>
  match node (fs w) p with
  | inl c => (Raise (os_error c p), w)
  | inr n =>
      match names p with
      | [] => (Return tt, w)
      | _ => (Return tt, set_fs w (<[p := set_mode n m]> (fs w)))
      end
  end.

(** *** Library calls on the network and on processes *)

(** [urllib.request.urlretrieve(url, p)]: the URL is opened, then the target
    file, then the body is copied. *)
Definition urlretrieve (url : string) (p : Path) : IO unit := fun w =>
  let w1 := mkWorld (fs w) (net_log w ++ [url]) (stderr w) (spawned w) in
  match remote ext (List.length (net_log w)) url with
  | Fetched body => open_write p body w1
  | FetchFailed e None => (Raise e, w1)
  | FetchFailed e (Some part) =>
      match open_write p part w1 with
      | (Return _, w2) => (Raise e, w2)
      | r => r
      end
  end.

(** [subprocess.run(cmd).returncode] *)
Definition subprocess_run (cmd : list string) : IO Z := fun w =>
  let w1 := mkWorld (fs w) (net_log w) (stderr w) (spawned w ++ [cmd]) in
  match child ext cmd (fs w) with
  | Exited rc => (Return rc, w1)
  | RunRaised e _ => (Raise e, w1)
  end.

(** *** [download_binary] *)

(** The asset URL built by the f-string of [download_binary]. *)
Definition asset_url (platform_str : string) : string :=
  GITHUB_RELEASE_URL ++ "/v" ++ __version__ ++ "/gcop-rs-v" ++ __version__
    ++ "-" ++ platform_str.

Definition download_binary : IO Path :=
  '(platform_str, binary_name) ← eval (get_binary_name h);
  bin_dir ← mret (get_binary_path h);
  Path_mkdir bin_dir;;

  let binary_path := bin_dir /: binary_name in
  let version_file := bin_dir /: "version" in

  (* Check if we already have the correct version *)
  both_exist ← (b ← Path_exists binary_path;
                if (b : bool) then Path_exists version_file else mret false);
  up_to_date ← (if (both_exist : bool) then
                  current_version ← read_text version_file;
                  mret (strip current_version =? __version__)%string
                else mret false);
  if (up_to_date : bool) then mret binary_path
  else
    (* Download the binary *)
    let url := asset_url platform_str in
    print_stderr ("Downloading gcop-rs v" ++ __version__ ++ " for "
                  ++ platform_str ++ "...");;
    try_except (urlretrieve url binary_path) is_Exception
      (fun e => raise (ExnFrom RuntimeError
                  ("Failed to download binary from " ++ url ++ ": "
                   ++ exn_str e) e));;

    (* Make executable on Unix *)
    (if negb (system h =? "Windows")%string then
       st_mode ← stat_st_mode binary_path;
       chmod binary_path
         (Z.lor (Z.lor (Z.lor st_mode S_IXUSR) S_IXGRP) S_IXOTH)
     else mret tt);;

    (* Save version *)
    write_text version_file __version__;;

    print_stderr ("Downloaded to " ++ str_of_Path h binary_path);;
    mret binary_path.

(** *** [main] *)

Definition main : IO Z :=
  r ← try_except (p ← download_binary; mret (inl p)) is_Exception
        (fun e => print_stderr ("Error: " ++ exn_str e);; mret (inr 1));
  match r with
  | inr code => mret code
  | inl binary_path =>
      (* Run the binary with all arguments *)
      try_except
        (subprocess_run ([str_of_Path h binary_path] ++ drop 1 (argv h)))
        is_KeyboardInterrupt
        (fun _ => mret 130)
  end.

End Wrapper.

(** ** Sample hosts and worlds *)

(** Splitting at a separator character. *)
Fixpoint split_on (sep : ascii) (acc : string) (s : string) : list string :=
  match s with
  | EmptyString => [acc]
  | String c s' =>
      if Ascii.eqb c sep then acc :: split_on sep EmptyString s'
      else split_on sep (acc ++ String c EmptyString) s'
  end.

Definition plain_names (l : list string) : list string :=
  filter (fun n => n <> "" /\ n <> ".") l.

Fixpoint join_with (sep : string) (l : list string) : string :=
  match l with
  | [] => ""
  | [n] => n
  | n :: l' => n ++ sep ++ join_with sep l'
  end.

(** A POSIX host: paths are split at "/", a leading "/" is the anchor. *)
Definition posix_Path (s : string) : Path :=
  mkPath (match s with String "/" _ => "/" | _ => "" end)
         (plain_names (split_on "/" "" s)).

Definition posix_str (p : Path) : string :=
  match names p, anchor p with
  | [], "" => "."
  | _, _ => anchor p ++ join_with "/" (names p)
  end.

(** A Windows host, for paths of the shape [X:\name\...\name]. *)
Definition windows_Path (s : string) : Path :=
  match s with
  | String d (String ":" (String "\" rest)) =>
      mkPath (String d ":\") (plain_names (split_on "\" "" rest))
  | _ => mkPath "" (plain_names (split_on "\" "" s))
  end.

Definition windows_str (p : Path) : string :=
  match names p, anchor p with
  | [], "" => "."
  | _, _ => anchor p ++ join_with "\" (names p)
  end.

Definition linux_host : Host :=
  mkHost "Linux" "x86_64" ∅ (mkPath "/" ["home"; "dev"])
         posix_Path posix_str 0x81a4 0x41ed ["gcop-rs"; "commit"; "--yes"].

Definition linux_xdg_host : Host :=
  mkHost "Linux" "x86_64" {[ "XDG_CACHE_HOME" := "/var/cache/dev" ]}
         (mkPath "/" ["home"; "dev"])
         posix_Path posix_str 0x81a4 0x41ed ["gcop-rs"; "review"].

Definition macos_host : Host :=
  mkHost "Darwin" "aarch64" ∅ (mkPath "/" ["Users"; "dev"])
         posix_Path posix_str 0x81a4 0x41ed ["gcop-rs"].

Definition windows_host : Host :=
  mkHost "Windows" "AMD64" {[ "LOCALAPPDATA" := "C:\Users\dev\AppData\Local" ]}
         (mkPath "C:\" ["Users"; "dev"])
         windows_Path windows_str 0x81b6 0x41ff ["gcop-rs.exe"; "--help"].

(** The same host with no [LOCALAPPDATA] in its environment. *)
Definition windows_bare_host : Host :=
  mkHost "Windows" "AMD64" ∅ (mkPath "C:\" ["Users"; "dev"])
         windows_Path windows_str 0x81b6 0x41ff ["gcop-rs.exe"].

(** A release host that serves every asset, and a program that exits
    with status 7. *)
Definition serving : Extern :=
  mkExtern (fun _ _ => Fetched "ELF") (fun _ _ => Exited 7).

(** A release host that cannot be reached. *)
Definition unreachable : Extern :=
  mkExtern
    (fun _ _ => FetchFailed (Exn URLError "<urlopen error timed out>") None)
    (fun _ _ => Exited 0).

(** The operator interrupts the transfer. *)
Definition interrupted_fetch : Extern :=
  mkExtern (fun _ _ => FetchFailed (Exn KeyboardInterrupt "") (Some "EL"))
           (fun _ _ => Exited 0).

(** The operator interrupts the child, which had reported status 3. *)
Definition interrupted_run : Extern :=
  mkExtern (fun _ _ => Fetched "ELF")
           (fun _ _ => RunRaised (Exn KeyboardInterrupt "") (Some 3)).

(** Nothing cached, nothing done yet. *)
Definition cold_world : World := mkWorld ∅ [] [] [].

(** The cache directory of [linux_host], empty. *)
Definition linux_dirs : list (Path * Node) :=
  [ (mkPath "/" ["home"], Dir 0x41ed);
    (mkPath "/" ["home"; "dev"], Dir 0x41ed);
    (mkPath "/" ["home"; "dev"; ".cache"], Dir 0x41ed);
    (mkPath "/" ["home"; "dev"; ".cache"; "gcop-rs"], Dir 0x41ed);
    (mkPath "/" ["home"; "dev"; ".cache"; "gcop-rs"; "bin"], Dir 0x41ed) ].

(** The same once version [v] has been recorded for the executable binary
    [bin]. *)
Definition linux_cache (bin v : string) : FS :=
  list_to_map
    (linux_dirs ++
     [ (mkPath "/" ["home"; "dev"; ".cache"; "gcop-rs"; "bin"; "gcop-rs"],
        File bin 0x81ed);
       (mkPath "/" ["home"; "dev"; ".cache"; "gcop-rs"; "bin"; "version"],
        File v 0x81a4) ]).

(** [cold_world] once the cache directory is made. *)
Definition made_world : World := mkWorld (list_to_map linux_dirs) [] [] [].

(** The same on [windows_host]. *)
Definition windows_made_world : World :=
  mkWorld
    (list_to_map
       [ (mkPath "C:\" ["Users"], Dir 0x41ff);
         (mkPath "C:\" ["Users"; "dev"], Dir 0x41ff);
         (mkPath "C:\" ["Users"; "dev"; "AppData"], Dir 0x41ff);
         (mkPath "C:\" ["Users"; "dev"; "AppData"; "Local"], Dir 0x41ff);
         (mkPath "C:\" ["Users"; "dev"; "AppData"; "Local"; "gcop-rs"],
          Dir 0x41ff);
         (mkPath "C:\" ["Users"; "dev"; "AppData"; "Local"; "gcop-rs"; "bin"],
          Dir 0x41ff) ])
    [] [] [].

(** [made_world] after a transfer that failed before the file was opened,
    and after one that was interrupted when "EL" had been written. *)
Definition failed_world : World :=
  mkWorld (list_to_map linux_dirs) [asset_url "linux-amd64"]
    ["Downloading gcop-rs v0.4.2 for linux-amd64..."] [].

Definition partial_world : World :=
  mkWorld
    (list_to_map
       (linux_dirs ++
        [ (mkPath "/" ["home"; "dev"; ".cache"; "gcop-rs"; "bin"; "gcop-rs"],
           File "EL" 0x81a4) ]))
    [asset_url "linux-amd64"]
    ["Downloading gcop-rs v0.4.2 for linux-amd64..."] [].

Definition newline : string := String (ascii_of_nat 10) EmptyString.

Definition warm_world : World :=
  mkWorld (linux_cache "ELF" ("0.4.2" ++ newline)) [] [] [].

Definition stale_world : World :=
  mkWorld (linux_cache "OLD" "0.4.1") [] [] [].

(** The world after a first download on [linux_host] from [cold_world]. *)
Definition cached_world : World :=
  mkWorld (linux_cache "ELF" "0.4.2") [asset_url "linux-amd64"]
    ["Downloading gcop-rs v0.4.2 for linux-amd64...";
     "Downloaded to /home/dev/.cache/gcop-rs/bin/gcop-rs"] [].

(** ** Notions used in the statements *)

(** [w'] differs from [w] in the file system only. *)
Definition same_io (w w' : World) : Prop :=
  net_log w' = net_log w /\ stderr w' = stderr w /\ spawned w' = spawned w.

(** [f'] is [f] with directories added at some missing prefixes of [p]. *)
Definition grows (p : Path) (f f' : FS) : Prop :=
  forall q, f' !! q = f !! q \/
            (q ∈ prefixes p /\ f !! q = None /\ exists m, f' !! q = Some (Dir m)).

(** No regular file stands where a directory on the way to [p], or [p]
    itself, has to be. *)
Definition no_file_on (p : Path) (f : FS) : Prop :=
  forall q c m, q ∈ prefixes p -> f !! q <> Some (File c m).

(** The mode a file written at [p] has afterwards: the mode it had, or the
    creation mode of the host. *)
Definition mode_after_write (h : Host) (f : FS) (p : Path) : Z :=
  match f !! p with
  | Some (File _ m) => m
  | _ => new_file_mode h
  end.

(** [m] keeps the property [P] of the world, whatever its outcome. *)
Definition preserves {A : Type} (P : World -> Prop) (m : IO A) : Prop :=
  forall w, P w -> P (snd (m w)).

(** The invariants used below: the programs started so far are [s]; [d] is a
    directory. *)
Definition spawned_is (s : list (list string)) (w : World) : Prop :=
  spawned w = s.

Definition dir_is (d : Path) (w : World) : Prop :=
  is_dir (fs w) d = true.

(** [P] survives the creation of a directory and the writing of a file that
    is not a directory. *)
Definition fs_stable (P : World -> Prop) : Prop :=
  (forall w p m, P w -> P (set_fs w (<[p := Dir m]> (fs w)))) /\
  (forall w p c m, P w -> (forall m', fs w !! p <> Some (Dir m')) ->
     P (set_fs w (<[p := File c m]> (fs w)))).

(** [P] does not depend on the diagnostic stream. *)
Definition stderr_stable (P : World -> Prop) : Prop :=
  forall w e, P w -> P (mkWorld (fs w) (net_log w) e (spawned w)).

(** [P] does not depend on the transfers made. *)
Definition net_stable (P : World -> Prop) : Prop :=
  forall w l, P w -> P (mkWorld (fs w) l (stderr w) (spawned w)).

(** The transfers made so far are [l]. *)
Definition net_log_is (l : list string) (w : World) : Prop :=
  net_log w = l.

(** [download_binary] does not find the expected version: the binary or the
    marker has no entry, or the marker, trimmed, is another string. *)
Definition misses (h : Host) (binary_name : string) (f : FS) : Prop :=
  f !! (get_binary_path h /: binary_name) = None \/
  f !! (get_binary_path h /: "version") = None \/
  exists c m, f !! (get_binary_path h /: "version") = Some (File c m) /\
              strip c <> __version__.

(** The cache is stale: the binary or the marker has no entry, or the marker
    is ASCII text that, trimmed, is another string than the expected
    version.  On ASCII text [read_text] cannot fail to decode and [strip]
    removes what [str.strip] removes. *)
Definition stale (h : Host) (binary_name : string) (f : FS) : Prop :=
  f !! (get_binary_path h /: binary_name) = None \/
  f !! (get_binary_path h /: "version") = None \/
  exists c m, f !! (get_binary_path h /: "version") = Some (File c m) /\
              is_ascii c = true /\ strip c <> __version__.

(** The world once the progress notice before the transfer is printed. *)
Definition announced (platform_str : string) (w : World) : World :=
  mkWorld (fs w) (net_log w)
          (stderr w ++ ["Downloading gcop-rs v" ++ __version__ ++ " for "
                        ++ platform_str ++ "..."])
          (spawned w).

(** The mode [chmod] leaves on the downloaded file. *)
Definition executable_mode (h : Host) (m : Z) : Z :=
  if (system h =? "Windows")%string then m
  else chmod_mode m (Z.lor (Z.lor (Z.lor m S_IXUSR) S_IXGRP) S_IXOTH).

(** The world a successful download leaves, from the world [w] in which the
    cache directory exists. *)
Definition downloaded (h : Host) (platform_str binary_name body : string)
    (w : World) : World :=
  let binary_path := get_binary_path h /: binary_name in
  let version_file := get_binary_path h /: "version" in
  mkWorld
    (<[version_file :=
         File __version__ (mode_after_write h (fs w) version_file)]>
       (<[binary_path :=
            File body
              (executable_mode h (mode_after_write h (fs w) binary_path))]>
          (fs w)))
    (net_log w ++ [asset_url platform_str])
    (stderr w ++ ["Downloading gcop-rs v" ++ __version__ ++ " for "
                  ++ platform_str ++ "...";
                  "Downloaded to " ++ str_of_Path h binary_path])
    (spawned w).

(** The command line handed to the child. *)
Definition child_command (h : Host) (binary_path : Path) : list string :=
  [str_of_Path h binary_path] ++ drop 1 (argv h).

(** The platform keys of the specification. *)
Inductive Architecture : Set := amd64 | arm64.
Inductive OperatingSystem : Set := macos | linux | windows.

(** The Platform Resolver in the words of the specification: the machine
    name is normalised first, then the operating system is mapped; both are
    matched in lower case. *)
Definition normalize_architecture (machine : string) : option Architecture :=
  if bool_decide (machine ∈ ["x86_64"; "amd64"]) then Some amd64
  else if bool_decide (machine ∈ ["arm64"; "aarch64"]) then Some arm64
  else None.

Definition recognize_os (system : string) : option OperatingSystem :=
  if bool_decide (system = "darwin") then Some macos
  else if bool_decide (system = "linux") then Some linux
  else if bool_decide (system = "windows") then Some windows
  else None.

Definition architecture_name (a : Architecture) : string :=
  match a with amd64 => "amd64" | arm64 => "arm64" end.

Definition release_asset (os : OperatingSystem) (a : Architecture)
    : string * string :=
  match os with
  | macos => ("macos-" ++ architecture_name a, "gcop-rs")
  | linux => ("linux-" ++ architecture_name a, "gcop-rs")
  | windows =>
      (match a with
       | arm64 => "windows-aarch64.exe"
       | amd64 => "windows-amd64.exe"
       end, "gcop-rs.exe")
  end.

Definition platform_resolver_spec (system machine : string)
    : Outcome (string * string) :=
  match normalize_architecture machine with
  | None => Raise (Exn RuntimeError ("Unsupported architecture: " ++ machine))
  | Some a =>
      match recognize_os system with
      | None =>
          Raise (Exn RuntimeError ("Unsupported operating system: " ++ system))
      | Some os => Return (release_asset os a)
      end
  end.

(** ** Further notions and samples *)

(** Every character of [s] is white space for [str.strip]. *)
Fixpoint all_space (s : string) : bool :=
  match s with
  | EmptyString => true
  | String c s' => isspace c && all_space s'
  end.

(** A host no release asset exists for. *)
Definition solaris_host : Host :=
  mkHost "SunOS" "sun4v" ∅ (mkPath "/" ["export"; "home"; "dev"])
         posix_Path posix_str 0x81a4 0x41ed ["gcop-rs"; "commit"].

(** A program that cannot be started. *)
Definition unrunnable : Extern :=
  mkExtern (fun _ _ => Fetched "ELF")
           (fun _ _ => RunRaised (Exn OSError "[Errno 8] Exec format error")
                         None).

(** On [linux_host], a regular file where the cache directory should be. *)
Definition blocked_world : World :=
  mkWorld
    (list_to_map
       [ (mkPath "/" ["home"], Dir 0x41ed);
         (mkPath "/" ["home"; "dev"], Dir 0x41ed);
         (mkPath "/" ["home"; "dev"; ".cache"], File "" 0x81a4) ])
    [] [] [].

(** The marker of the expected version is there, the binary is not. *)
Definition orphan_marker_world : World :=
  mkWorld
    (list_to_map
       (linux_dirs ++
        [ (mkPath "/" ["home"; "dev"; ".cache"; "gcop-rs"; "bin"; "version"],
           File "0.4.2" 0x81a4) ]))
    [] [] [].

(** [orphan_marker_world] after a transfer interrupted when "EL" had been
    written. *)
Definition truncated_world : World :=
  mkWorld
    (list_to_map
       (linux_dirs ++
        [ (mkPath "/" ["home"; "dev"; ".cache"; "gcop-rs"; "bin"; "gcop-rs"],
           File "EL" 0x81a4);
          (mkPath "/" ["home"; "dev"; ".cache"; "gcop-rs"; "bin"; "version"],
           File "0.4.2" 0x81a4) ]))
    [asset_url "linux-amd64"]
    ["Downloading gcop-rs v0.4.2 for linux-amd64..."] [].

(** A directory where the binary should be, and no marker. *)
Definition dir_binary_world : World :=
  mkWorld
    (list_to_map
       (linux_dirs ++
        [ (mkPath "/" ["home"; "dev"; ".cache"; "gcop-rs"; "bin"; "gcop-rs"],
           Dir 0x41ed) ]))
    [] [] [].

(** The binary is there; a directory where the marker should be. *)
Definition dir_marker_world : World :=
  mkWorld
    (list_to_map
       (linux_dirs ++
        [ (mkPath "/" ["home"; "dev"; ".cache"; "gcop-rs"; "bin"; "gcop-rs"],
           File "ELF" 0x81ed);
          (mkPath "/" ["home"; "dev"; ".cache"; "gcop-rs"; "bin"; "version"],
           Dir 0x41ed) ]))
    [] [] [].

(** * Properties *)

(** ** Paths *)

Lemma path_eta (p : Path) : mkPath (anchor p) (names p) = p.
Proof. by destruct p. Qed.

Lemma parent_join (d : Path) (n : string) : parent (d /: n) = d.
Proof.
  destruct d as [a ns]. unfold parent, path_join. simpl.
  by rewrite removelast_last.
Qed.

Lemma join_inj (d : Path) (n n' : string) : d /: n = d /: n' -> n = n'.
Proof.
  unfold path_join. intros H. injection H as H.
  by apply app_inv_head in H; injection H.
Qed.

Lemma names_join (d : Path) (n : string) :
  names (d /: n) = (names d ++ [n])%list.
Proof. done. Qed.

Lemma names_join_nonempty (d : Path) (n : string) : names (d /: n) <> [].
Proof. rewrite names_join. by destruct (names d). Qed.

Lemma prefixes_from_snoc (a : string) (ns : list string) :
  forall pre n,
    prefixes_from a pre (ns ++ [n])
    = (prefixes_from a pre ns ++ [mkPath a (pre ++ ns ++ [n])])%list.
Proof.
  induction ns as [|x ns IH]; intros pre n; simpl.
  - done.
  - rewrite IH. by rewrite <- !app_assoc.
Qed.

Lemma prefixes_from_bounds (a : string) (ns : list string) :
  forall pre q,
    q ∈ prefixes_from a pre ns ->
    anchor q = a /\
    (List.length pre < List.length (names q) <= List.length pre + List.length ns)%nat.
Proof.
  induction ns as [|x ns IH]; intros pre q Hq; simpl in *.
  - by apply elem_of_nil in Hq.
  - apply elem_of_cons in Hq as [-> | Hq].
    + simpl. rewrite length_app. simpl. split; [done | lia].
    + apply IH in Hq as [? Hq]. rewrite length_app in Hq. simpl in Hq.
      split; [done | lia].
Qed.

Lemma ancestors_join (d : Path) (n : string) : ancestors (d /: n) = prefixes d.
Proof. unfold ancestors. by rewrite parent_join. Qed.

Lemma prefixes_join (d : Path) (n : string) :
  prefixes (d /: n) = (prefixes d ++ [d /: n])%list.
Proof.
  unfold prefixes. rewrite names_join, prefixes_from_snoc. simpl.
  by destruct d.
Qed.

Lemma prefixes_shorter (p q : Path) :
  q ∈ prefixes p -> (List.length (names q) <= List.length (names p))%nat.
Proof. intros H. apply prefixes_from_bounds in H. simpl in H. lia. Qed.

Lemma child_not_in_prefixes (d : Path) (n : string) : d /: n ∉ prefixes d.
Proof.
  intros H. apply prefixes_shorter in H. rewrite names_join, length_app in H.
  simpl in H. lia.
Qed.

(** ** Path resolution *)

Lemma first_non_dir_app (f : FS) (l1 l2 : list Path) :
  first_non_dir f (l1 ++ l2)
  = match first_non_dir f l1 with
    | Some c => Some c
    | None => first_non_dir f l2
    end.
Proof.
  induction l1 as [|q l1 IH]; simpl; [done|].
  destruct (f !! q) as [[m|c m]|]; auto.
Qed.

Lemma first_non_dir_None (f : FS) (qs : list Path) :
  first_non_dir f qs = None <->
  forall q, q ∈ qs -> exists m, f !! q = Some (Dir m).
Proof.
  induction qs as [|q qs IH]; simpl.
  - split; [|done]. intros _ q Hq. by apply elem_of_nil in Hq.
  - split.
    + intros H q' Hq'. destruct (f !! q) as [[m|c m]|] eqn:E; try done.
      apply elem_of_cons in Hq' as [-> | Hq']; [eauto | by apply IH].
    + intros H. destruct (H q) as [m Hm]; [by left|]. rewrite Hm.
      apply IH. intros q' Hq'. apply H. by right.
Qed.

Lemma first_non_dir_insert_notin (f : FS) (q : Path) (x : Node)
    (qs : list Path) :
  q ∉ qs -> first_non_dir (<[q := x]> f) qs = first_non_dir f qs.
Proof.
  induction qs as [|q' qs IH]; simpl; intros Hq; [done|].
  apply not_elem_of_cons in Hq as [Hne Hq].
  rewrite lookup_insert_ne by done. rewrite IH by done. done.
Qed.

Lemma first_non_dir_insert_dir (f : FS) (q : Path) (m : Z) (qs : list Path) :
  first_non_dir f qs = None -> first_non_dir (<[q := Dir m]> f) qs = None.
Proof.
  rewrite !first_non_dir_None. intros H q' Hq'.
  destruct (decide (q = q')) as [->|Hne].
  - rewrite lookup_insert_eq. eauto.
  - rewrite lookup_insert_ne by done. by apply H.
Qed.

Lemma prefixes_base (p : Path) : names p = [] -> prefixes p = [].
Proof. unfold prefixes. by intros ->. Qed.

Lemma prefixes_split (p : Path) :
  names p <> [] -> prefixes p = (ancestors p ++ [p])%list.
Proof.
  destruct p as [a ns]. simpl. intros Hns.
  destruct ns as [|x l _] using rev_ind; [done|].
  change (mkPath a (l ++ [x])) with (mkPath a l /: x).
  by rewrite prefixes_join, ancestors_join.
Qed.

(** A path is a directory exactly when the walk through all its prefixes
    meets directories only. *)
Lemma is_dir_iff (f : FS) (d : Path) :
  is_dir f d = true <-> first_non_dir f (prefixes d) = None.
Proof.
  unfold is_dir, node, resolve.
  destruct (names d) as [|x l] eqn:E.
  - rewrite prefixes_base by done. done.
  - rewrite prefixes_split by (by rewrite E).
    rewrite first_non_dir_app. simpl.
    destruct (first_non_dir f (ancestors d)); [done|].
    destruct (f !! d) as [[m|c m]|]; done.
Qed.

Lemma resolve_child (f : FS) (d : Path) (n : string) :
  resolve f (d /: n) = None <-> is_dir f d = true.
Proof. unfold resolve. rewrite ancestors_join. symmetry. apply is_dir_iff. Qed.

Lemma node_child (f : FS) (d : Path) (n : string) :
  is_dir f d = true ->
  node f (d /: n)
  = match f !! (d /: n) with
    | Some x => inr x
    | None => inl FileNotFoundError
    end.
Proof.
  intros Hd. apply resolve_child with (n := n) in Hd.
  unfold node. rewrite Hd, names_join. by destruct (names d).
Qed.

Lemma exists_child_is_dir (f : FS) (d : Path) (n : string) :
  path_exists f (d /: n) = true -> is_dir f d = true.
Proof.
  unfold path_exists, node. rewrite names_join.
  destruct (names d ++ [n])%list eqn:E; [by destruct (names d)|].
  destruct (resolve f (d /: n)) eqn:R; [done|]. intros _.
  by apply resolve_child in R.
Qed.

Lemma is_dir_insert_notin (f : FS) (d q : Path) (x : Node) :
  q ∉ prefixes d -> is_dir (<[q := x]> f) d = is_dir f d.
Proof.
  intros Hq. apply eq_true_iff_eq. rewrite !is_dir_iff.
  by rewrite first_non_dir_insert_notin.
Qed.

Lemma is_dir_insert_child (f : FS) (d : Path) (n : string) (x : Node) :
  is_dir (<[d /: n := x]> f) d = is_dir f d.
Proof. apply is_dir_insert_notin, child_not_in_prefixes. Qed.

Lemma is_dir_insert_dir (f : FS) (d q : Path) (m : Z) :
  is_dir f d = true -> is_dir (<[q := Dir m]> f) d = true.
Proof. rewrite !is_dir_iff. apply first_non_dir_insert_dir. Qed.

Lemma is_dir_insert_new (f : FS) (p : Path) (m : Z) :
  names p <> [] -> resolve f p = None -> is_dir (<[p := Dir m]> f) p = true.
Proof.
  intros Hp Hr. apply is_dir_iff. rewrite prefixes_split by done.
  rewrite first_non_dir_app. unfold resolve in Hr.
  rewrite first_non_dir_insert_dir by done. simpl.
  by rewrite lookup_insert_eq.
Qed.

Lemma elem_of_prefixes_from (a : string) (ns : list string) :
  forall pre q,
    q ∈ prefixes_from a pre ns <->
    exists l1 l2, l1 <> [] /\ ns = (l1 ++ l2)%list
                  /\ q = mkPath a (pre ++ l1).
Proof.
  induction ns as [|x ns IH]; intros pre q; simpl.
  - split; [intros H; by apply elem_of_nil in H|].
    intros (l1 & l2 & Hne & E & _). by destruct l1.
  - rewrite elem_of_cons, IH. split.
    + intros [-> | (l1 & l2 & Hne & -> & ->)].
      * exists [x], ns. done.
      * exists (x :: l1), l2. split; [done|]. split; [done|].
        by rewrite <- app_assoc.
    + intros (l1 & l2 & Hne & E & ->).
      destruct l1 as [|y l1]; [done|]. simpl in E. injection E as -> ->.
      destruct l1 as [|z l1]; [by left|]. right.
      exists (z :: l1), l2. split; [done|]. split; [done|].
      by rewrite <- app_assoc.
Qed.

Lemma elem_of_prefixes (p q : Path) :
  q ∈ prefixes p <->
  exists l1 l2, l1 <> [] /\ names p = (l1 ++ l2)%list
                /\ q = mkPath (anchor p) l1.
Proof. unfold prefixes. by rewrite elem_of_prefixes_from. Qed.

Lemma prefixes_trans (p q r : Path) :
  q ∈ prefixes p -> r ∈ prefixes q -> r ∈ prefixes p.
Proof.
  rewrite !elem_of_prefixes.
  intros (l1 & l2 & Hne & E & ->) (k1 & k2 & Hk & Ek & ->). simpl in *.
  subst l1. exists k1, (k2 ++ l2)%list. split; [done|].
  split; [by rewrite E, app_assoc | done].
Qed.

(** Every prefix of a directory is a directory. *)
Lemma is_dir_prefix (f : FS) (d q : Path) :
  is_dir f d = true -> q ∈ prefixes d -> is_dir f q = true.
Proof.
  rewrite !is_dir_iff, !first_non_dir_None. intros H Hq r Hr.
  apply H. by apply prefixes_trans with q.
Qed.

(** ** Directory creation *)

Lemma same_io_trans (w1 w2 w3 : World) :
  same_io w1 w2 -> same_io w2 w3 -> same_io w1 w3.
Proof. unfold same_io. intros (?&?&?) (?&?&?). split_and!; congruence. Qed.

Lemma grows_refl (p : Path) (f : FS) : grows p f f.
Proof. intros q. by left. Qed.

Lemma grows_trans (p p' : Path) (f1 f2 f3 : FS) :
  (forall q, q ∈ prefixes p' -> q ∈ prefixes p) ->
  grows p' f1 f2 -> grows p f2 f3 -> grows p f1 f3.
Proof.
  intros Hsub H12 H23 q.
  destruct (H23 q) as [E23 | (Hq & Hn & m & Hm)].
  - rewrite E23. destruct (H12 q) as [? | (Hq & Hn & m & Hm)]; [by left|].
    right. eauto.
  - destruct (H12 q) as [E12 | (_ & _ & m' & Hm')]; [|congruence].
    right. rewrite <- E12. eauto.
Qed.

Section Mkdir.

Context (h : Host).

Lemma os_mkdir_Return (p : Path) (w w' : World) :
  os_mkdir h p w = (Return tt, w') ->
  names p <> [] /\ resolve (fs w) p = None /\ fs w !! p = None /\
  w' = set_fs w (<[p := Dir (new_dir_mode h)]> (fs w)).
Proof.
  unfold os_mkdir. destruct (names p) eqn:E; [done|].
  destruct (resolve (fs w) p); [done|].
  destruct (fs w !! p); [done|]. intros [= <-]. done.
Qed.

Lemma os_mkdir_Raise (p : Path) (w w' : World) (e : exn) :
  os_mkdir h p w = (Raise e, w') -> w' = w.
Proof.
  unfold os_mkdir. destruct (names p); [by intros [= _ <-]|].
  destruct (resolve (fs w) p); [by intros [= _ <-]|].
  destruct (fs w !! p); [by intros [= _ <-]|done].
Qed.

Lemma os_mkdir_ok (p : Path) (w w' : World) :
  os_mkdir h p w = (Return tt, w') ->
  is_dir (fs w') p = true /\ same_io w w' /\ grows p (fs w) (fs w').
Proof.
  intros (Hp & Hr & Hn & ->)%os_mkdir_Return. simpl. split_and!.
  - by apply is_dir_insert_new.
  - done.
  - intros q. destruct (decide (p = q)) as [<-|Hne].
    + right. rewrite lookup_insert_eq. split_and!; [|done|eauto].
      rewrite prefixes_split by done. apply elem_of_app. right. by left.
    + left. by rewrite lookup_insert_ne.
Qed.

Lemma mkdir_leaf_ok (exist_ok : bool) (p : Path) (w w' : World) :
  mkdir_leaf h exist_ok p w = (Return tt, w') ->
  is_dir (fs w') p = true /\ same_io w w' /\ grows p (fs w) (fs w').
Proof.
  unfold mkdir_leaf. destruct (os_mkdir h p w) as [[[]|e] w1] eqn:E.
  - intros [= <-]. by apply os_mkdir_ok.
  - apply os_mkdir_Raise in E as ->.
    destruct (exn_cls e); try done;
      destruct (is_OSError e && exist_ok && is_dir (fs w) p) eqn:C;
      try done; intros [= <-];
      apply andb_prop in C as [_ C]; (split_and!; [done|done|apply grows_refl]).
Qed.

Lemma prefixes_parent_sub (a : string) (x : string) (rn : list string)
    (q : Path) :
  q ∈ prefixes (mkPath a (rev rn)) -> q ∈ prefixes (mkPath a (rev (x :: rn))).
Proof.
  simpl. change (mkPath a (rev rn ++ [x])) with (mkPath a (rev rn) /: x).
  rewrite prefixes_join. intros H. apply elem_of_app. by left.
Qed.

Lemma mkdir_parents_eq (exist_ok : bool) (a : string) (rn : list string)
    (w : World) :
  mkdir_parents h exist_ok a rn w
  = match os_mkdir h (mkPath a (rev rn)) w with
    | (Raise e, w') =>
        match exn_cls e with
        | FileNotFoundError =>
            match rn with
            | [] => (Raise e, w')
            | _ :: rn' =>
                match mkdir_parents h true a rn' w' with
                | (Return _, w'') =>
                    mkdir_leaf h exist_ok (mkPath a (rev rn)) w''
                | r => r
                end
            end
        | _ =>
            if is_OSError e && exist_ok
               && is_dir (fs w') (mkPath a (rev rn))
            then (Return tt, w') else (Raise e, w')
        end
    | r => r
    end.
Proof. by destruct rn. Qed.

Lemma mkdir_parents_ok (a : string) (rn : list string) :
  forall (exist_ok : bool) (w w' : World),
    mkdir_parents h exist_ok a rn w = (Return tt, w') ->
    is_dir (fs w') (mkPath a (rev rn)) = true /\ same_io w w' /\
    grows (mkPath a (rev rn)) (fs w) (fs w').
Proof.
  induction rn as [|x rn IH]; intros exist_ok w w'; rewrite mkdir_parents_eq.
  - destruct (os_mkdir h (mkPath a (rev [])) w) as [[[]|e] w1] eqn:E.
    + intros [= <-]. by apply os_mkdir_ok in E.
    + apply os_mkdir_Raise in E as ->.
      destruct (exn_cls e); try done;
        destruct (is_OSError e && exist_ok
                  && is_dir (fs w) (mkPath a (rev []))) eqn:D;
        try done; intros [= <-]; apply andb_prop in D as [_ D];
        (split_and!; [done|done|apply grows_refl]).
  - destruct (os_mkdir h (mkPath a (rev (x :: rn))) w) as [[[]|e] w1] eqn:E.
    + intros [= <-]. by apply os_mkdir_ok in E.
    + apply os_mkdir_Raise in E as ->.
      destruct (exn_cls e) eqn:C;
        try (destruct (is_OSError e && exist_ok
                       && is_dir (fs w) (mkPath a (rev (x :: rn)))) eqn:D;
             [intros [= <-]; apply andb_prop in D as [_ D];
              split_and!; [done|done|apply grows_refl] | done]).
      destruct (mkdir_parents h true a rn w) as [[[]|e1] w1] eqn:R; [|done].
      apply IH in R as (_ & Hio & Hg). intros L.
      apply mkdir_leaf_ok in L as (Hd & Hio' & Hg').
      split_and!; [done | by eapply same_io_trans |].
      eapply grows_trans; [|exact Hg|exact Hg'].
      intros q. apply (prefixes_parent_sub a x rn).
Qed.

(** [mkdir(parents=True, exist_ok=True)] leaves an existing directory, and
    the whole world, as it is. *)
Lemma Path_mkdir_existing (p : Path) (w : World) :
  is_dir (fs w) p = true -> Path_mkdir h p w = (Return tt, w).
Proof.
  intros Hd. unfold Path_mkdir.
  assert (os_mkdir h p w = (Raise (os_error h FileExistsError p), w)) as E.
  { unfold os_mkdir. destruct (names p) eqn:N; [done|].
    unfold is_dir, node in Hd. rewrite N in Hd.
    destruct (resolve (fs w) p); [done|]. by destruct (fs w !! p). }
  rewrite mkdir_parents_eq, rev_involutive, path_eta, E. simpl.
  by rewrite Hd.
Qed.

(** After a successful [mkdir(parents=True, exist_ok=True)] the path is a
    directory; only directories on the way to it were added. *)
Lemma Path_mkdir_ok (p : Path) (w w' : World) :
  Path_mkdir h p w = (Return tt, w') ->
  is_dir (fs w') p = true /\ same_io w w' /\ grows p (fs w) (fs w').
Proof.
  unfold Path_mkdir. intros H. apply mkdir_parents_ok in H.
  by rewrite rev_involutive, path_eta in H.
Qed.

Lemma first_non_dir_Some (f : FS) (qs : list Path) (c : exn_class) :
  first_non_dir f qs = Some c ->
  c = FileNotFoundError \/
  (c = NotADirectoryError /\ exists q x m, q ∈ qs /\ f !! q = Some (File x m)).
Proof.
  induction qs as [|q qs IH]; simpl; [done|].
  destruct (f !! q) as [[m|x m]|] eqn:E.
  - intros [? | (? & q' & x' & m' & ? & ?)]%IH; [by left|].
    right. split; [done|]. exists q', x', m'. split; [by right | done].
  - intros [= <-]. right. split; [done|]. exists q, x, m. split; [by left|done].
  - intros [= <-]. by left.
Qed.

Lemma is_dir_lookup (f : FS) (p : Path) (m : Z) :
  names p <> [] -> resolve f p = None -> f !! p = Some (Dir m) ->
  is_dir f p = true.
Proof.
  intros Hn Hr Hl. unfold is_dir, node. rewrite Hr, Hl.
  by destruct (names p).
Qed.

(** [mkdir(parents=True, exist_ok=True)] succeeds unless a regular file is in
    the way. *)
Lemma mkdir_parents_total (a : string) (rn : list string) :
  forall w : World,
    no_file_on (mkPath a (rev rn)) (fs w) ->
    exists w', mkdir_parents h true a rn w = (Return tt, w').
Proof.
  induction rn as [|x rn IH]; intros w Hnf; rewrite mkdir_parents_eq.
  - simpl. eauto.
  - set (p := mkPath a (rev (x :: rn))) in *.
    assert (p = mkPath a (rev rn) /: x) as Ep by done.
    assert (names p <> []) as Hne by (rewrite Ep; apply names_join_nonempty).
    unfold os_mkdir. destruct (names p) as [|y l] eqn:N; [done|].
    destruct (resolve (fs w) p) as [c|] eqn:R.
    + apply first_non_dir_Some in R as [-> | (-> & q & c' & m & Hq & Hl)].
      * simpl.
        destruct (IH w) as [w1 H1].
        { intros q c m Hq. apply Hnf. by apply prefixes_parent_sub. }
        rewrite H1. apply mkdir_parents_ok in H1 as (Hd & _ & Hg).
        unfold mkdir_leaf, os_mkdir. rewrite N.
        assert (resolve (fs w1) p = None) as ->
          by (rewrite Ep; by apply resolve_child).
        destruct (fs w1 !! p) as [n|] eqn:L; [|eauto]. simpl.
        assert (exists m, n = Dir m) as [m ->].
        { destruct (Hg p) as [E | (_ & _ & m & Hm)].
          - destruct n as [m|c m]; [eauto|]. exfalso.
            apply (Hnf p c m); [|congruence].
            rewrite prefixes_split by (by rewrite N).
            apply elem_of_app. right. by left.
          - exists m. congruence. }
        rewrite (is_dir_lookup (fs w1) p m); [eauto | by rewrite N | | done].
        rewrite Ep. by apply resolve_child.
      * exfalso. apply (Hnf q c' m); [|done].
        rewrite prefixes_split by (by rewrite N). apply elem_of_app. by left.
    + destruct (fs w !! p) as [n|] eqn:L; [|eauto]. simpl.
      destruct n as [m|c m].
      * rewrite (is_dir_lookup (fs w) p m); [eauto | by rewrite N | done..].
      * exfalso. apply (Hnf p c m); [|done].
        rewrite prefixes_split by (by rewrite N).
        apply elem_of_app. right. by left.
Qed.

Lemma Path_mkdir_total (p : Path) (w : World) :
  no_file_on p (fs w) -> exists w', Path_mkdir h p w = (Return tt, w').
Proof.
  intros H. unfold Path_mkdir. apply mkdir_parents_total.
  by rewrite rev_involutive, path_eta.
Qed.

End Mkdir.

(** ** Files in a directory *)

Section Files.

Context (h : Host).

Lemma path_exists_child (f : FS) (d : Path) (n : string) :
  is_dir f d = true ->
  path_exists f (d /: n) = match f !! (d /: n) with Some _ => true | None => false end.
Proof.
  intros Hd. unfold path_exists. rewrite node_child by done.
  by destruct (f !! (d /: n)).
Qed.

Lemma read_text_child (d : Path) (n : string) (w : World) :
  is_dir (fs w) d = true ->
  read_text h (d /: n) w
  = match fs w !! (d /: n) with
    | Some (File c _) => (Return c, w)
    | Some (Dir _) => (Raise (os_error h IsADirectoryError (d /: n)), w)
    | None => (Raise (os_error h FileNotFoundError (d /: n)), w)
    end.
Proof.
  intros Hd. unfold read_text. rewrite node_child by done.
  by destruct (fs w !! (d /: n)) as [[]|].
Qed.

Lemma open_write_child (d : Path) (n c : string) (w : World) :
  is_dir (fs w) d = true ->
  open_write h (d /: n) c w
  = match fs w !! (d /: n) with
    | Some (Dir _) => (Raise (os_error h IsADirectoryError (d /: n)), w)
    | _ => (Return tt,
            set_fs w (<[d /: n := File c (mode_after_write h (fs w) (d /: n))]>
                        (fs w)))
    end.
Proof.
  intros Hd. unfold open_write, mode_after_write.
  apply resolve_child with (n := n) in Hd. rewrite Hd, names_join.
  destruct (names d ++ [n])%list eqn:E; [by destruct (names d)|].
  by destruct (fs w !! (d /: n)) as [[]|].
Qed.

Lemma open_write_Return (d : Path) (n c : string) (w w' : World) :
  open_write h (d /: n) c w = (Return tt, w') ->
  is_dir (fs w) d = true /\
  (forall m, fs w !! (d /: n) <> Some (Dir m)) /\
  w' = set_fs w (<[d /: n := File c (mode_after_write h (fs w) (d /: n))]>
                   (fs w)).
Proof.
  destruct (is_dir (fs w) d) eqn:Hd.
  - rewrite open_write_child by done.
    destruct (fs w !! (d /: n)) as [[]|]; [done|..]; by intros [= <-].
  - unfold open_write. rewrite names_join.
    destruct (names d ++ [n])%list; [done|].
    destruct (resolve (fs w) (d /: n)) eqn:R; [done|].
    apply resolve_child in R. congruence.
Qed.

Lemma open_write_Raise (p : Path) (c : string) (w w' : World) (e : exn) :
  open_write h p c w = (Raise e, w') -> w' = w /\ is_Exception e = true.
Proof.
  unfold open_write. destruct (names p); [by intros [= <- <-]|].
  destruct (resolve (fs w) p) as [c'|] eqn:R.
  - apply first_non_dir_Some in R as [-> | [-> _]]; by intros [= <- <-].
  - destruct (fs w !! p) as [[]|]; try done. by intros [= <- <-].
Qed.

Lemma stat_st_mode_child (d : Path) (n : string) (w : World) (x : Node) :
  is_dir (fs w) d = true -> fs w !! (d /: n) = Some x ->
  stat_st_mode h (d /: n) w = (Return (node_mode x), w).
Proof.
  intros Hd Hl. unfold stat_st_mode. by rewrite node_child, Hl.
Qed.

Lemma chmod_child (d : Path) (n : string) (w : World) (x : Node) (m : Z) :
  is_dir (fs w) d = true -> fs w !! (d /: n) = Some x ->
  chmod h (d /: n) m w
  = (Return tt, set_fs w (<[d /: n := set_mode x m]> (fs w))).
Proof.
  intros Hd Hl. unfold chmod. rewrite node_child, Hl, names_join by done.
  by destruct (names d ++ [n])%list eqn:E; [destruct (names d)|].
Qed.

End Files.

(** ** Invariants of effectful code *)

Lemma preserves_ret {A : Type} (P : World -> Prop) (a : A) :
  preserves P (mret a).
Proof. by intros w. Qed.

Lemma preserves_raise {A : Type} (P : World -> Prop) (e : exn) :
  preserves P (raise (A := A) e).
Proof. by intros w. Qed.

Lemma preserves_eval {A : Type} (P : World -> Prop) (o : Outcome A) :
  preserves P (eval o).
Proof. by intros w. Qed.

Lemma preserves_bind {A B : Type} (P : World -> Prop) (m : IO A)
    (k : A -> IO B) :
  preserves P m -> (forall a, preserves P (k a)) -> preserves P (m ≫= k).
Proof.
  intros Hm Hk w Hw. unfold mbind, IO_bind.
  specialize (Hm w Hw). destruct (m w) as [[a|e] w']; simpl in *; [|done].
  by apply Hk.
Qed.

Lemma preserves_try_except {A : Type} (P : World -> Prop) (m : IO A)
    (catches : exn -> bool) (handler : exn -> IO A) :
  preserves P m -> (forall e, preserves P (handler e)) ->
  preserves P (try_except m catches handler).
Proof.
  intros Hm Hh w Hw. unfold try_except.
  specialize (Hm w Hw). destruct (m w) as [[a|e] w']; simpl in *; [done|].
  destruct (catches e); [by apply Hh | done].
Qed.

Lemma preserves_if {A : Type} (P : World -> Prop) (b : bool) (m1 m2 : IO A) :
  preserves P m1 -> preserves P m2 -> preserves P (if b then m1 else m2).
Proof. by destruct b. Qed.

Lemma spawned_is_stable (s : list (list string)) :
  fs_stable (spawned_is s) /\ stderr_stable (spawned_is s)
  /\ net_stable (spawned_is s).
Proof.
  unfold fs_stable, stderr_stable, net_stable, spawned_is.
  split_and!; by intros.
Qed.

Lemma net_log_is_stable (l : list string) :
  fs_stable (net_log_is l) /\ stderr_stable (net_log_is l).
Proof. unfold fs_stable, stderr_stable, net_log_is. split_and!; by intros. Qed.

Lemma dir_is_stable (d : Path) :
  fs_stable (dir_is d) /\ stderr_stable (dir_is d) /\ net_stable (dir_is d).
Proof.
  unfold fs_stable, stderr_stable, net_stable, dir_is. split_and!.
  - intros w p m. apply is_dir_insert_dir.
  - intros w p c m Hd Hp. simpl. rewrite is_dir_insert_notin; [done|].
    intros Hin. apply is_dir_iff in Hd.
    destruct (proj1 (first_non_dir_None _ _) Hd p Hin) as [m' Hm'].
    by apply (Hp m').
  - by intros.
  - by intros.
Qed.

Section Frames.

Context (h : Host) (ext : Extern) (P : World -> Prop) (HP : fs_stable P).
Context (HPe : stderr_stable P).

Lemma preserves_os_mkdir (p : Path) : preserves P (os_mkdir h p).
Proof.
  intros w Hw. unfold os_mkdir. repeat case_match; simpl; try done.
  by apply HP.
Qed.

Lemma preserves_mkdir_leaf (b : bool) (p : Path) :
  preserves P (mkdir_leaf h b p).
Proof.
  intros w Hw. unfold mkdir_leaf.
  pose proof (preserves_os_mkdir p w Hw) as H1.
  destruct (os_mkdir h p w) as [[[]|e] w']; [done|].
  repeat case_match; done.
Qed.

Lemma preserves_mkdir_parents (a : string) (rn : list string) :
  forall b, preserves P (mkdir_parents h b a rn).
Proof.
  induction rn as [|x rn IH]; intros b w Hw; rewrite mkdir_parents_eq.
  - pose proof (preserves_os_mkdir (mkPath a (rev [])) w Hw) as H1.
    destruct (os_mkdir h (mkPath a (rev [])) w) as [[[]|e] w']; [done|].
    repeat case_match; done.
  - pose proof (preserves_os_mkdir (mkPath a (rev (x :: rn))) w Hw) as H1.
    destruct (os_mkdir h (mkPath a (rev (x :: rn))) w) as [[[]|e] w']; [done|].
    simpl in H1.
    destruct (exn_cls e); try (repeat case_match; done).
    pose proof (IH true w' H1) as H2.
    destruct (mkdir_parents h true a rn w') as [[[]|e'] w'']; [|done].
    by apply preserves_mkdir_leaf.
Qed.

Lemma preserves_Path_mkdir (p : Path) : preserves P (Path_mkdir h p).
Proof. apply preserves_mkdir_parents. Qed.

Lemma preserves_Path_exists (p : Path) : preserves P (Path_exists p).
Proof. by intros w. Qed.

Lemma preserves_read_text (p : Path) : preserves P (read_text h p).
Proof. intros w Hw. unfold read_text. repeat case_match; done. Qed.

Lemma preserves_open_write (p : Path) (c : string) :
  preserves P (open_write h p c).
Proof.
  intros w Hw. unfold open_write. repeat case_match; simpl; try done.
  - apply HP; [done|]. congruence.
  - apply HP; [done|]. congruence.
Qed.

Lemma preserves_write_text (p : Path) (c : string) :
  preserves P (write_text h p c).
Proof. apply preserves_open_write. Qed.

Lemma preserves_stat_st_mode (p : Path) : preserves P (stat_st_mode h p).
Proof. intros w Hw. unfold stat_st_mode. repeat case_match; done. Qed.

Lemma preserves_chmod (p : Path) (m : Z) : preserves P (chmod h p m).
Proof.
  intros w Hw. unfold chmod.
  destruct (node (fs w) p) as [c|n] eqn:N; [done|].
  destruct (names p) eqn:E; [done|]. simpl.
  unfold node in N. rewrite E in N.
  destruct (resolve (fs w) p); [done|].
  destruct (fs w !! p) as [n'|] eqn:L; [|done]. injection N as ->.
  destruct n as [m0|c m0]; simpl; apply HP; try done. congruence.
Qed.

Lemma preserves_print_stderr (line : string) :
  preserves P (print_stderr line).
Proof. intros w Hw. unfold print_stderr. simpl. by apply HPe. Qed.

(** What follows the transfer in [download_binary] keeps [P]. *)
Lemma preserves_finish (binary_path version_file : Path) :
  preserves P
    ((if negb (system h =? "Windows")%string then
        st_mode ← stat_st_mode h binary_path;
        chmod h binary_path
          (Z.lor (Z.lor (Z.lor st_mode S_IXUSR) S_IXGRP) S_IXOTH)
      else mret tt);;
     write_text h version_file __version__;;
     print_stderr ("Downloaded to " ++ str_of_Path h binary_path);;
     mret binary_path).
Proof.
  repeat first
    [ apply preserves_ret | apply preserves_write_text
    | apply preserves_stat_st_mode | apply preserves_chmod
    | apply preserves_print_stderr | apply preserves_if
    | apply preserves_bind; [|intros ?] ].
Qed.

Context (HPn : net_stable P).

Lemma preserves_urlretrieve (url : string) (p : Path) :
  preserves P (urlretrieve h ext url p).
Proof.
  intros w Hw. unfold urlretrieve.
  assert (P (mkWorld (fs w) (net_log w ++ [url]) (stderr w) (spawned w)))
    as H1 by (by apply HPn).
  destruct (remote ext (List.length (net_log w)) url) as [body|e [part|]].
  - by apply preserves_open_write.
  - pose proof (preserves_open_write p part _ H1) as H2.
    by destruct (open_write h p part _) as [[[]|e'] w'].
  - done.
Qed.

(** [download_binary] keeps every such property. *)
Lemma preserves_download_binary : preserves P (download_binary h ext).
Proof.
  unfold download_binary.
  repeat first
    [ apply preserves_ret | apply preserves_raise | apply preserves_eval
    | apply preserves_Path_mkdir | apply preserves_Path_exists
    | apply preserves_read_text | apply preserves_write_text
    | apply preserves_stat_st_mode | apply preserves_chmod
    | apply preserves_print_stderr | apply preserves_urlretrieve
    | apply preserves_if
    | apply preserves_try_except; [|intros ?]
    | apply preserves_bind; [|intros ?]
    | match goal with |- preserves _ (let '(_, _) := ?x in _) =>
        destruct x end ].
Qed.

End Frames.

(** [download_binary] starts no program. *)
Lemma download_binary_spawned (h : Host) (ext : Extern) (w : World) :
  spawned (snd (download_binary h ext w)) = spawned w.
Proof.
  destruct (spawned_is_stable (spawned w)) as (H1 & H2 & H3).
  by apply (preserves_download_binary h ext _ H1 H2 H3).
Qed.

(** ** [download_binary] *)

Lemma bind_Return {A B : Type} (m : IO A) (k : A -> IO B) (w w' : World)
    (a : A) :
  m w = (Return a, w') -> (m ≫= k) w = k a w'.
Proof. unfold mbind, IO_bind. by intros ->. Qed.

Lemma bind_Raise {A B : Type} (m : IO A) (k : A -> IO B) (w w' : World)
    (e : exn) :
  m w = (Raise e, w') -> (m ≫= k) w = (Raise e, w').
Proof. unfold mbind, IO_bind. by intros ->. Qed.

Section Download.

Context (h : Host) (ext : Extern).

Local Abbreviation bin_dir := (get_binary_path h).

Lemma version_ne_binary (ps bn : string) :
  get_binary_name h = Return (ps, bn) -> bin_dir /: "version" <> bin_dir /: bn.
Proof.
  intros Hn E. apply join_inj in E. revert Hn. rewrite <- E.
  unfold get_binary_name. repeat case_match; congruence.
Qed.

(** The cache holds the expected version: nothing happens. *)
Lemma download_binary_hit (w : World) (ps bn c : string) (m : Z) :
  get_binary_name h = Return (ps, bn) ->
  path_exists (fs w) (bin_dir /: bn) = true ->
  fs w !! (bin_dir /: "version") = Some (File c m) ->
  strip c = __version__ ->
  download_binary h ext w = (Return (bin_dir /: bn), w).
Proof.
  intros Hn Hb Hv Hs.
  pose proof (exists_child_is_dir _ _ _ Hb) as Hd.
  unfold download_binary, mbind, IO_bind, mret, IO_ret, eval, Path_exists.
  rewrite Hn, Path_mkdir_existing by done. rewrite Hb.
  rewrite path_exists_child, Hv by done.
  rewrite read_text_child, Hv by done.
  rewrite Hs. by rewrite String.eqb_refl.
Qed.

Lemma stale_misses (bn : string) (f : FS) : stale h bn f -> misses h bn f.
Proof.
  intros [H | [H | (c & m & H & _ & Hs)]]; [by left | right; by left |].
  right. right. eauto.
Qed.

(** The check that precedes the transfer answers "no" on a stale cache. *)
Lemma stale_check (w : World) (bn : string) :
  is_dir (fs w) bin_dir = true ->
  misses h bn (fs w) ->
  exists both_exist : bool,
    (Path_exists (bin_dir /: bn)
     ≫= λ b : bool, if b then Path_exists (bin_dir /: "version")
                    else mret false) w = (Return both_exist, w) /\
    (if both_exist
     then read_text h (bin_dir /: "version")
          ≫= λ current_version : string,
               mret (strip current_version =? __version__)%string
     else mret false) w = (Return false, w).
Proof.
  intros Hd Hst.
  unfold mbind, IO_bind, mret, IO_ret, Path_exists.
  rewrite path_exists_child by done.
  destruct Hst as [-> | [Hv | (c & m & Hv & Hne)]]; [by exists false| |].
  - exists false. destruct (fs w !! (bin_dir /: bn)); [|done].
    by rewrite path_exists_child, Hv.
  - apply String.eqb_neq in Hne.
    destruct (fs w !! (bin_dir /: bn)); [|by exists false].
    exists true. rewrite path_exists_child, Hv by done.
    by rewrite read_text_child, Hv, Hne.
Qed.

(** On a stale cache everything hinges on the transfer. *)
Lemma download_binary_stale (w w0 : World) (ps bn : string) :
  get_binary_name h = Return (ps, bn) ->
  Path_mkdir h bin_dir w = (Return tt, w0) ->
  misses h bn (fs w0) ->
  download_binary h ext w
  = match urlretrieve h ext (asset_url ps) (bin_dir /: bn) (announced ps w0)
    with
    | (Raise e, w2) =>
        (Raise (if is_Exception e
                then ExnFrom RuntimeError
                       ("Failed to download binary from " ++ asset_url ps
                        ++ ": " ++ exn_str e) e
                else e), w2)
    | (Return _, w2) =>
        ((if negb (system h =? "Windows")%string then
            st_mode ← stat_st_mode h (bin_dir /: bn);
            chmod h (bin_dir /: bn)
              (Z.lor (Z.lor (Z.lor st_mode S_IXUSR) S_IXGRP) S_IXOTH)
          else mret tt);;
         write_text h (bin_dir /: "version") __version__;;
         print_stderr ("Downloaded to " ++ str_of_Path h (bin_dir /: bn));;
         mret (bin_dir /: bn)) w2
    end.
Proof.
  intros Hn Hm Hst.
  pose proof (Path_mkdir_ok h _ _ _ Hm) as (Hd & _ & _).
  destruct (stale_check w0 bn Hd Hst) as (both & HA & HB).
  unfold download_binary.
  erewrite bind_Return; [|unfold eval; rewrite Hn; reflexivity]. simpl.
  erewrite bind_Return; [|reflexivity].
  erewrite bind_Return; [|exact Hm].
  erewrite bind_Return; [|exact HA].
  erewrite bind_Return; [|exact HB]. simpl.
  erewrite bind_Return; [|reflexivity]. fold (announced ps w0).
  unfold mbind at 1, IO_bind at 1, try_except, raise.
  destruct (urlretrieve h ext (asset_url ps) (bin_dir /: bn) (announced ps w0))
    as [[[]|e] w2]; [done|].
  by destruct (is_Exception e).
Qed.

Lemma stderr_snoc2 (l : list string) (a b : string) :
  ((l ++ [a]) ++ [b])%list = (l ++ [a; b])%list.
Proof. by rewrite <- app_assoc. Qed.

(** The transfer succeeds: the binary and the marker are written. *)
Lemma download_binary_fetched (w w0 : World) (ps bn body : string) :
  get_binary_name h = Return (ps, bn) ->
  Path_mkdir h bin_dir w = (Return tt, w0) ->
  misses h bn (fs w0) ->
  remote ext (List.length (net_log w0)) (asset_url ps) = Fetched body ->
  (forall m, fs w0 !! (bin_dir /: bn) <> Some (Dir m)) ->
  (forall m, fs w0 !! (bin_dir /: "version") <> Some (Dir m)) ->
  download_binary h ext w = (Return (bin_dir /: bn), downloaded h ps bn body w0).
Proof.
  intros Hn Hm Hst Hr Hb Hv.
  pose proof (Path_mkdir_ok h _ _ _ Hm) as (Hd & _ & _).
  pose proof (version_ne_binary ps bn Hn) as Hne.
  rewrite (download_binary_stale w w0 ps bn) by done.
  assert (exists n, (n = None \/ exists c m, n = Some (File c m)) /\
                    fs w0 !! (bin_dir /: bn) = n) as (nb & Hnb & Lb).
  { destruct (fs w0 !! (bin_dir /: bn)) as [[m|c m]|] eqn:E;
      [by destruct (Hb m) | eauto 6 | eauto]. }
  assert (exists n, (n = None \/ exists c m, n = Some (File c m)) /\
                    fs w0 !! (bin_dir /: "version") = n) as (nv & Hnv & Lv).
  { destruct (fs w0 !! (bin_dir /: "version")) as [[m|c m]|] eqn:E;
      [by destruct (Hv m) | eauto 6 | eauto]. }
  set (m1 := mode_after_write h (fs w0) (bin_dir /: bn)).
  set (w2 := mkWorld (<[bin_dir /: bn := File body m1]> (fs w0))
               (net_log w0 ++ [asset_url ps]) (stderr (announced ps w0))
               (spawned w0)).
  assert (urlretrieve h ext (asset_url ps) (bin_dir /: bn) (announced ps w0)
          = (Return tt, w2)) as ->.
  { unfold urlretrieve. cbn [announced fs net_log stderr spawned]. rewrite Hr.
    rewrite open_write_child by done. cbn [fs]. rewrite Lb.
    by destruct Hnb as [-> | (c & m & ->)]. }
  assert (is_dir (fs w2) bin_dir = true) as Hd2
    by (unfold w2; cbn [fs]; by rewrite is_dir_insert_child).
  assert (fs w2 !! (bin_dir /: bn) = Some (File body m1)) as L2
    by (unfold w2; cbn [fs]; by rewrite lookup_insert_eq).
  set (w3 := mkWorld
               (<[bin_dir /: bn := File body (executable_mode h m1)]> (fs w0))
               (net_log w2) (stderr w2) (spawned w2)).
  assert ((if negb (system h =? "Windows")%string then
             st_mode ← stat_st_mode h (bin_dir /: bn);
             chmod h (bin_dir /: bn)
               (Z.lor (Z.lor (Z.lor st_mode S_IXUSR) S_IXGRP) S_IXOTH)
           else mret ()) w2 = (Return (), w3)) as Hchmod.
  { unfold w3, executable_mode.
    destruct (system h =? "Windows")%string; simpl.
    - unfold mret, IO_ret, w2. cbn [fs net_log stderr spawned].
      done.
    - erewrite bind_Return; [|by apply stat_st_mode_child].
      erewrite chmod_child by done.
      unfold w2, set_fs. cbn [fs net_log stderr spawned set_mode node_mode].
      by rewrite insert_insert_eq. }
  erewrite bind_Return; [|exact Hchmod].
  assert (is_dir (fs w3) bin_dir = true) as Hd3
    by (unfold w3; cbn [fs]; by rewrite is_dir_insert_child).
  assert (fs w3 !! (bin_dir /: "version") = nv) as L3
    by (unfold w3; cbn [fs]; by rewrite lookup_insert_ne).
  set (w4 := mkWorld
               (<[bin_dir /: "version" :=
                    File __version__
                      (mode_after_write h (fs w0) (bin_dir /: "version"))]>
                  (fs w3))
               (net_log w3) (stderr w3) (spawned w3)).
  assert (write_text h (bin_dir /: "version") __version__ w3
          = (Return tt, w4)) as Hwrite.
  { unfold write_text, w4. rewrite open_write_child by done.
    unfold mode_after_write. rewrite L3, Lv.
    by destruct Hnv as [-> | (c & m & ->)]. }
  erewrite bind_Return; [|exact Hwrite].
  erewrite bind_Return; [|reflexivity].
  unfold downloaded, mret, IO_ret, w4, w3, w2.
  cbn [announced fs net_log stderr spawned]. fold m1.
  by rewrite stderr_snoc2.
Qed.

End Download.

Section DownloadCases.

Context (h : Host) (ext : Extern).

Local Abbreviation bin_dir := (get_binary_path h).

Lemma urlretrieve_Return (url : string) (p : Path) (w w' : World) :
  urlretrieve h ext url p w = (Return tt, w') ->
  exists body,
    remote ext (List.length (net_log w)) url = Fetched body /\
    open_write h p body
      (mkWorld (fs w) (net_log w ++ [url]) (stderr w) (spawned w))
    = (Return tt, w').
Proof.
  unfold urlretrieve.
  destruct (remote ext (List.length (net_log w)) url) as [body|e [part|]].
  - eauto.
  - by destruct (open_write h p part _) as [[[]|e'] w''].
  - done.
Qed.

(** Every call of [urlretrieve] is one more transfer, whatever comes of it. *)
Lemma urlretrieve_net_log (url : string) (p : Path) (w : World) :
  net_log (snd (urlretrieve h ext url p w)) = (net_log w ++ [url])%list.
Proof.
  assert (forall c w1, net_log (snd (open_write h p c w1)) = net_log w1) as Ho.
  { intros c w1. unfold open_write. repeat case_match; done. }
  unfold urlretrieve.
  destruct (remote ext (List.length (net_log w)) url) as [body|e [part|]].
  - by rewrite Ho.
  - specialize (Ho part (mkWorld (fs w) (net_log w ++ [url]) (stderr w)
                                 (spawned w))).
    by destruct (open_write h p part _) as [[[]|e'] w''].
  - done.
Qed.

(** The cache holds the expected version once the directory is there. *)
Lemma download_binary_hit_in (w w0 : World) (ps bn c : string) (x : Node)
    (m : Z) :
  get_binary_name h = Return (ps, bn) ->
  Path_mkdir h bin_dir w = (Return tt, w0) ->
  fs w0 !! (bin_dir /: bn) = Some x ->
  fs w0 !! (bin_dir /: "version") = Some (File c m) ->
  strip c = __version__ ->
  download_binary h ext w = (Return (bin_dir /: bn), w0).
Proof.
  intros Hn Hm Hb Hv Hs.
  pose proof (Path_mkdir_ok h _ _ _ Hm) as (Hd & _ & _).
  unfold download_binary.
  erewrite bind_Return; [|unfold eval; rewrite Hn; reflexivity]. simpl.
  erewrite bind_Return; [|reflexivity].
  erewrite bind_Return; [|exact Hm].
  erewrite (bind_Return _ _ w0 w0 true).
  2:{ erewrite bind_Return.
      2:{ unfold Path_exists. by rewrite path_exists_child, Hb. }
      unfold Path_exists. by rewrite path_exists_child, Hv. }
  erewrite (bind_Return _ _ w0 w0 true); [done|].
  erewrite bind_Return; [|by rewrite read_text_child, Hv].
  by rewrite Hs, String.eqb_refl.
Qed.

(** The marker is a directory: reading it fails before any transfer. *)
Lemma download_binary_marker_unreadable (w w0 : World) (ps bn : string)
    (x : Node) (m : Z) :
  get_binary_name h = Return (ps, bn) ->
  Path_mkdir h bin_dir w = (Return tt, w0) ->
  fs w0 !! (bin_dir /: bn) = Some x ->
  fs w0 !! (bin_dir /: "version") = Some (Dir m) ->
  download_binary h ext w
  = (Raise (os_error h IsADirectoryError (bin_dir /: "version")), w0).
Proof.
  intros Hn Hm Hb Hv.
  pose proof (Path_mkdir_ok h _ _ _ Hm) as (Hd & _ & _).
  unfold download_binary.
  erewrite bind_Return; [|unfold eval; rewrite Hn; reflexivity]. simpl.
  erewrite bind_Return; [|reflexivity].
  erewrite bind_Return; [|exact Hm].
  erewrite (bind_Return _ _ w0 w0 true).
  2:{ erewrite bind_Return.
      2:{ unfold Path_exists. by rewrite path_exists_child, Hb. }
      unfold Path_exists. by rewrite path_exists_child, Hv. }
  erewrite bind_Raise; [done|].
  erewrite bind_Raise; [done|]. by rewrite read_text_child, Hv.
Qed.

(** The marker is a directory and the binary is missing: the transfer is
    made, and recording the version fails. *)
Lemma download_binary_marker_unwritable (w w0 w2 : World) (ps bn : string)
    (m : Z) :
  get_binary_name h = Return (ps, bn) ->
  Path_mkdir h bin_dir w = (Return tt, w0) ->
  fs w0 !! (bin_dir /: bn) = None ->
  fs w0 !! (bin_dir /: "version") = Some (Dir m) ->
  urlretrieve h ext (asset_url ps) (bin_dir /: bn) (announced ps w0)
  = (Return tt, w2) ->
  exists w3,
    download_binary h ext w
    = (Raise (os_error h IsADirectoryError (bin_dir /: "version")), w3).
Proof.
  intros Hn Hm Hb Hv Hu.
  pose proof (Path_mkdir_ok h _ _ _ Hm) as (Hd & _ & _).
  pose proof (version_ne_binary h ps bn Hn) as Hne.
  rewrite (download_binary_stale h ext w w0 ps bn) by (done || by left).
  rewrite Hu.
  apply urlretrieve_Return in Hu as (body & _ & Ho).
  apply open_write_Return in Ho as (_ & _ & ->).
  cbn [announced fs net_log stderr spawned].
  set (w2 := set_fs _ _).
  assert (is_dir (fs w2) bin_dir = true) as Hd2
    by (unfold w2; cbn [fs set_fs]; by rewrite is_dir_insert_child).
  assert (forall w3 : World,
            is_dir (fs w3) bin_dir = true ->
            fs w3 !! (bin_dir /: "version") = Some (Dir m) ->
            (write_text h (bin_dir /: "version") __version__
             ≫= λ _ : (),
                  print_stderr
                    ("Downloaded to " ++ str_of_Path h (bin_dir /: bn))
                  ≫= λ _ : (), mret (bin_dir /: bn)) w3
            = (Raise (os_error h IsADirectoryError (bin_dir /: "version")),
               w3)) as Hw.
  { intros w3 Hd3 Hv3. erewrite bind_Raise; [done|].
    unfold write_text. by rewrite open_write_child, Hv3. }
  destruct (system h =? "Windows")%string; simpl.
  - erewrite bind_Return; [|reflexivity]. exists w2. apply Hw; [done|].
    unfold w2. cbn [fs set_fs]. by rewrite lookup_insert_ne.
  - erewrite bind_Return.
    2:{ erewrite bind_Return.
        2:{ apply stat_st_mode_child; [done|].
            unfold w2. cbn [fs set_fs]. apply lookup_insert_eq. }
        apply chmod_child; [done|].
        unfold w2. cbn [fs set_fs]. apply lookup_insert_eq. }
    eexists. apply Hw.
    + cbn [fs set_fs]. by rewrite is_dir_insert_child.
    + unfold w2. cbn [fs set_fs]. by rewrite !lookup_insert_ne.
Qed.

(** What a normal return of [download_binary] means: the platform was
    resolved and the directory made; then either the cache held the expected
    version and nothing else happened, or it was stale and one transfer
    delivered the binary. *)
Lemma download_binary_Return (w w1 : World) (p : Path) :
  download_binary h ext w = (Return p, w1) ->
  exists ps bn w0,
    get_binary_name h = Return (ps, bn) /\ p = bin_dir /: bn /\
    Path_mkdir h bin_dir w = (Return tt, w0) /\
    ((exists x c m,
        fs w0 !! (bin_dir /: bn) = Some x /\
        fs w0 !! (bin_dir /: "version") = Some (File c m) /\
        strip c = __version__ /\ w1 = w0)
     \/
     (misses h bn (fs w0) /\
      exists body,
        remote ext (List.length (net_log w0)) (asset_url ps) = Fetched body /\
        w1 = downloaded h ps bn body w0)).
Proof.
  intros H. destruct (get_binary_name h) as [[ps bn]|e] eqn:Hn.
  2:{ unfold download_binary in H.
      erewrite bind_Raise in H; [done|]. unfold eval. by rewrite Hn. }
  destruct (Path_mkdir h bin_dir w) as [[[]|e] w0] eqn:Hm.
  2:{ unfold download_binary in H.
      erewrite bind_Return in H; [|unfold eval; rewrite Hn; reflexivity].
      simpl in H. erewrite bind_Return in H; [|reflexivity].
      erewrite bind_Raise in H; [done|exact Hm]. }
  exists ps, bn, w0. split; [done|].
  assert (forall body,
            misses h bn (fs w0) ->
            remote ext (List.length (net_log w0)) (asset_url ps)
            = Fetched body ->
            (forall m, fs w0 !! (bin_dir /: bn) <> Some (Dir m)) ->
            (forall m, fs w0 !! (bin_dir /: "version") <> Some (Dir m)) ->
            p = bin_dir /: bn /\ w1 = downloaded h ps bn body w0) as Hfetched.
  { intros body Hst Hr Hb Hv.
    rewrite (download_binary_fetched h ext w w0 ps bn body) in H by done.
    by injection H as <- <-. }
  assert (misses h bn (fs w0) ->
          (forall m, fs w0 !! (bin_dir /: "version") <> Some (Dir m)) ->
          p = bin_dir /: bn /\
          exists body,
            remote ext (List.length (net_log w0)) (asset_url ps)
            = Fetched body /\
            w1 = downloaded h ps bn body w0) as Hstale.
  { intros Hst Hv.
    destruct (urlretrieve h ext (asset_url ps) (bin_dir /: bn)
                (announced ps w0)) as [[[]|e] w2] eqn:U.
    2:{ rewrite (download_binary_stale h ext w w0 ps bn) in H by done.
        by rewrite U in H. }
    apply urlretrieve_Return in U as (body & Hr & Ho).
    apply open_write_Return in Ho as (_ & Hb & _).
    cbn [announced fs net_log stderr spawned] in Hr, Hb.
    destruct (Hfetched body Hst Hr Hb Hv) as [-> ->]. eauto. }
  destruct (fs w0 !! (bin_dir /: "version")) as [[m|c m]|] eqn:Lv.
  - exfalso. destruct (fs w0 !! (bin_dir /: bn)) as [x|] eqn:Lb.
    + by rewrite (download_binary_marker_unreadable w w0 ps bn x m) in H.
    + destruct (urlretrieve h ext (asset_url ps) (bin_dir /: bn)
                  (announced ps w0)) as [[[]|e] w2] eqn:U.
      * destruct (download_binary_marker_unwritable w w0 w2 ps bn m)
          as [w3 E]; try done. by rewrite E in H.
      * rewrite (download_binary_stale h ext w w0 ps bn) in H;
          [by rewrite U in H | done | done | by left].
  - destruct (fs w0 !! (bin_dir /: bn)) as [x|] eqn:Lb.
    + destruct (decide (strip c = __version__)) as [Hs|Hs].
      * rewrite (download_binary_hit_in w w0 ps bn c x m) in H by done.
        injection H as <- <-. split; [done|]. split; [done|].
        left. by exists x, c, m.
      * assert (misses h bn (fs w0)) as Hst.
        { right. right. exists c, m. by rewrite Lv. }
        destruct Hstale as (-> & body & Hr & ->); [done|done|].
        split; [done|]. split; [done|]. right. eauto.
    + assert (misses h bn (fs w0)) as Hst by (by left).
      destruct Hstale as (-> & body & Hr & ->); [done|done|].
      split; [done|]. split; [done|]. right. eauto.
  - assert (misses h bn (fs w0)) as Hst by (right; by left).
    destruct Hstale as (-> & body & Hr & ->); [done|done|].
    split; [done|]. split; [done|]. right. eauto.
Qed.

(** After a download the cache holds the expected version. *)
Lemma downloaded_cache (w0 : World) (ps bn body : string) :
  get_binary_name h = Return (ps, bn) ->
  is_dir (fs w0) bin_dir = true ->
  let w1 := downloaded h ps bn body w0 in
  is_dir (fs w1) bin_dir = true /\
  (exists m, fs w1 !! (bin_dir /: bn) = Some (File body m)) /\
  (exists m, fs w1 !! (bin_dir /: "version") = Some (File __version__ m)).
Proof.
  intros Hn Hd. pose proof (version_ne_binary h ps bn Hn) as Hne.
  unfold downloaded. cbn [fs]. split_and!.
  - by rewrite !is_dir_insert_child.
  - rewrite lookup_insert_ne, lookup_insert_eq by done. eauto.
  - rewrite lookup_insert_eq. eauto.
Qed.

End DownloadCases.

(** ** [main] *)

Section Main.

Context (h : Host) (ext : Extern).

Local Abbreviation bin_dir := (get_binary_path h).

(** Once the directory is there, [download_binary] does what it does in the
    world where the directory was made. *)
Lemma download_binary_after_mkdir (w w0 : World) (ps bn : string) :
  get_binary_name h = Return (ps, bn) ->
  Path_mkdir h bin_dir w = (Return tt, w0) ->
  download_binary h ext w = download_binary h ext w0.
Proof.
  intros Hn Hm. pose proof (Path_mkdir_ok h _ _ _ Hm) as (Hd & _ & _).
  etrans.
  { unfold download_binary.
    erewrite bind_Return; [|unfold eval; rewrite Hn; reflexivity]. simpl.
    erewrite bind_Return; [|reflexivity].
    erewrite bind_Return; [|exact Hm]. reflexivity. }
  symmetry. unfold download_binary.
  erewrite bind_Return; [|unfold eval; rewrite Hn; reflexivity]. simpl.
  erewrite bind_Return; [|reflexivity].
  erewrite bind_Return; [|by apply Path_mkdir_existing]. reflexivity.
Qed.

Lemma main_fetched (w w1 : World) (p : Path) :
  download_binary h ext w = (Return p, w1) ->
  main h ext w
  = try_except (subprocess_run ext (child_command h p)) is_KeyboardInterrupt
      (fun _ => mret 130) w1.
Proof.
  intros H. unfold main.
  assert (try_except (p ← download_binary h ext; mret (inl p)) is_Exception
            (fun e => print_stderr ("Error: " ++ exn_str e);; mret (inr 1)) w
          = (Return (inl p), w1)) as E.
  { unfold try_except. erewrite bind_Return; [|exact H]. done. }
  erewrite bind_Return; [|exact E]. done.
Qed.

Lemma main_not_fetched (w w1 : World) (e : exn) :
  download_binary h ext w = (Raise e, w1) ->
  main h ext w
  = if is_Exception e
    then (Return 1,
          mkWorld (fs w1) (net_log w1)
                  (stderr w1 ++ ["Error: " ++ exn_str e]) (spawned w1))
    else (Raise e, w1).
Proof.
  intros H. unfold main.
  destruct (is_Exception e) eqn:E.
  - assert (try_except (p ← download_binary h ext; mret (inl p)) is_Exception
              (fun e => print_stderr ("Error: " ++ exn_str e);;
                        mret (inr 1)) w
            = (Return (inr 1),
               mkWorld (fs w1) (net_log w1)
                 (stderr w1 ++ ["Error: " ++ exn_str e]) (spawned w1))) as E1.
    { unfold try_except. erewrite bind_Raise; [|exact H]. by rewrite E. }
    erewrite bind_Return; [|exact E1]. done.
  - assert (try_except (p ← download_binary h ext; mret (inl p)) is_Exception
              (fun e => print_stderr ("Error: " ++ exn_str e);;
                        mret (inr 1)) w
            = (Raise e, w1)) as E1.
    { unfold try_except. erewrite bind_Raise; [|exact H]. by rewrite E. }
    erewrite bind_Raise; [|exact E1]. done.
Qed.

End Main.

Section Transfers.

Context (h : Host) (ext : Extern).

Local Abbreviation bin_dir := (get_binary_path h).

(** [urlretrieve] writes nowhere but at its target. *)
Lemma urlretrieve_elsewhere (url : string) (p q : Path) (w : World) :
  q <> p -> fs (snd (urlretrieve h ext url p w)) !! q = fs w !! q.
Proof.
  intros Hne.
  assert (forall c w1, fs (snd (open_write h p c w1)) !! q = fs w1 !! q) as Ho.
  { intros c w1. unfold open_write.
    repeat case_match; simpl; by rewrite ?lookup_insert_ne. }
  unfold urlretrieve.
  destruct (remote ext (List.length (net_log w)) url) as [body|e [part|]].
  - by rewrite Ho.
  - specialize (Ho part (mkWorld (fs w) (net_log w ++ [url]) (stderr w)
                                 (spawned w))).
    by destruct (open_write h p part _) as [[[]|e'] w''].
  - done.
Qed.

(** On a stale cache [download_binary] makes one transfer, of the asset URL,
    whatever comes of it. *)
Lemma download_binary_one_transfer (w w0 : World) (ps bn : string) :
  get_binary_name h = Return (ps, bn) ->
  Path_mkdir h bin_dir w = (Return tt, w0) ->
  misses h bn (fs w0) ->
  net_log (snd (download_binary h ext w))
  = (net_log w ++ [asset_url ps])%list.
Proof.
  intros Hn Hm Hst.
  rewrite (download_binary_stale h ext w w0 ps bn) by done.
  apply Path_mkdir_ok in Hm as (_ & (Hlog & _) & _).
  pose proof (urlretrieve_net_log h ext (asset_url ps) (bin_dir /: bn)
                (announced ps w0)) as Hu.
  cbn [announced net_log] in Hu. rewrite Hlog in Hu.
  destruct (urlretrieve h ext (asset_url ps) (bin_dir /: bn) (announced ps w0))
    as [[[]|e] w2]; [|done].
  destruct (net_log_is_stable (net_log w ++ [asset_url ps])) as [H1 H2].
  by apply (preserves_finish h _ H1 H2).
Qed.

End Transfers.

(** * The claims *)

(** ** Platform Resolver *)

Lemma bool_decide_string_eq (a b : string) :
  bool_decide (a = b) = (a =? b)%string.
Proof.
  destruct (String.eqb_spec a b).
  - by rewrite bool_decide_eq_true_2.
  - by rewrite bool_decide_eq_false_2.
Qed.

Lemma bool_decide_string_in2 (m a b : string) :
  bool_decide (m ∈ [a; b]) = ((m =? a)%string || (m =? b)%string).
Proof.
  destruct (String.eqb_spec m a) as [->|Ha].
  - rewrite bool_decide_eq_true_2; [done | by left].
  - destruct (String.eqb_spec m b) as [->|Hb].
    + rewrite bool_decide_eq_true_2; [done | right; by left].
    + rewrite bool_decide_eq_false_2; [done|].
      rewrite !elem_of_cons, elem_of_nil. tauto.
Qed.

(** C1.  For every pair of host strings [get_binary_name] returns what the
    Platform Resolver of the specification prescribes for their lower-case
    forms: x86_64 and amd64 become "amd64", arm64 and aarch64 become
    "arm64", any other machine is an unsupported-architecture error;
    darwin, linux and windows give the three asset names, any other system
    is an unsupported-operating-system error.  In particular
    ("Darwin", "aarch64") gives ("macos-arm64", "gcop-rs") and
    ("Windows", "AMD64") gives ("windows-amd64.exe", "gcop-rs.exe"). *)
Theorem get_binary_name_resolves (h : Host) :
  get_binary_name h
  = platform_resolver_spec (lower (system h)) (lower (machine h)) /\
  (system h = "Darwin" -> machine h = "aarch64" ->
   get_binary_name h = Return ("macos-arm64", "gcop-rs")) /\
  (system h = "Windows" -> machine h = "AMD64" ->
   get_binary_name h = Return ("windows-amd64.exe", "gcop-rs.exe")).
Proof.
  split.
  - unfold get_binary_name, platform_resolver_spec, normalize_architecture,
      recognize_os.
    rewrite !bool_decide_string_in2, !bool_decide_string_eq.
    generalize (lower (system h)) (lower (machine h)). intros s m.
    destruct ((m =? "x86_64")%string || (m =? "amd64")%string);
      [|destruct ((m =? "arm64")%string || (m =? "aarch64")%string)];
      try reflexivity;
      destruct (s =? "darwin")%string; try reflexivity;
      destruct (s =? "linux")%string; try reflexivity;
      destruct (s =? "windows")%string; reflexivity.
  - split; intros Hs Hm; unfold get_binary_name; by rewrite Hs, Hm.
Qed.

Lemma get_binary_name_resolves_witness :
  get_binary_name macos_host = Return ("macos-arm64", "gcop-rs") /\
  get_binary_name windows_host = Return ("windows-amd64.exe", "gcop-rs.exe").
Proof.
  split.
  - apply (proj1 (proj2 (get_binary_name_resolves macos_host))); reflexivity.
  - apply (proj2 (proj2 (get_binary_name_resolves windows_host))); reflexivity.
Defined.

(** ** Fetcher: the cache *)

(** C2.  When the binary and the version marker both exist and the marker,
    trimmed, is the expected version, [download_binary] returns the path of
    the binary and leaves the world as it is: nothing is requested from the
    network.  Hence a second call right after a call that returned finds
    the cache valid and changes nothing.  And from a stale cache on a host
    that delivers the asset, the first call returns after one transfer, of
    the asset URL, and the second call returns the same path without a
    transfer: the two calls make exactly one. *)
Theorem download_binary_idempotent (h : Host) (ext : Extern) :
  (forall w ps bn c m,
     get_binary_name h = Return (ps, bn) ->
     path_exists (fs w) (get_binary_path h /: bn) = true ->
     fs w !! (get_binary_path h /: "version") = Some (File c m) ->
     strip c = __version__ ->
     download_binary h ext w = (Return (get_binary_path h /: bn), w)) /\
  (forall w p w1,
     download_binary h ext w = (Return p, w1) ->
     download_binary h ext w1 = (Return p, w1)) /\
  (forall w w0 ps bn body,
     get_binary_name h = Return (ps, bn) ->
     Path_mkdir h (get_binary_path h) w = (Return tt, w0) ->
     stale h bn (fs w0) ->
     remote ext (List.length (net_log w0)) (asset_url ps) = Fetched body ->
     (forall m, fs w0 !! (get_binary_path h /: bn) <> Some (Dir m)) ->
     (forall m, fs w0 !! (get_binary_path h /: "version") <> Some (Dir m)) ->
     let w1 := downloaded h ps bn body w0 in
     download_binary h ext w = (Return (get_binary_path h /: bn), w1) /\
     net_log w1 = (net_log w ++ [asset_url ps])%list /\
     download_binary h ext w1 = (Return (get_binary_path h /: bn), w1)).
Proof.
  assert (forall w p w1,
            download_binary h ext w = (Return p, w1) ->
            download_binary h ext w1 = (Return p, w1)) as Hsecond.
  { intros w p w1 H.
    apply download_binary_Return in H
      as (ps & bn & w0 & Hn & -> & Hm & Hcase).
    apply Path_mkdir_ok in Hm as (Hd & _ & _).
    destruct Hcase as [(x & c & m & Hb & Hv & Hs & ->)
                      | (_ & body & _ & ->)].
    - apply (download_binary_hit h ext w0 ps bn c m); try done.
      by rewrite path_exists_child, Hb.
    - destruct (downloaded_cache h w0 ps bn body Hn Hd)
        as (Hd1 & [mb Hb1] & [mv Hv1]).
      apply (download_binary_hit h ext _ ps bn __version__ mv); try done.
      by rewrite path_exists_child, Hb1. }
  split; [|split].
  - intros w ps bn c m. apply download_binary_hit.
  - exact Hsecond.
  - intros w w0 ps bn body Hn Hm Hst%stale_misses Hr Hb Hv w1.
    assert (download_binary h ext w = (Return (get_binary_path h /: bn), w1))
      as H1 by (by apply download_binary_fetched).
    split_and!; [exact H1 | | by apply (Hsecond w)].
    apply Path_mkdir_ok in Hm as (_ & (Hlog & _) & _).
    unfold w1, downloaded. cbn [net_log]. by rewrite Hlog.
Qed.

Lemma download_binary_idempotent_witness :
  download_binary linux_host serving warm_world
  = (Return (get_binary_path linux_host /: "gcop-rs"), warm_world) /\
  download_binary linux_host serving cached_world
  = (Return (get_binary_path linux_host /: "gcop-rs"), cached_world) /\
  (let w1 := downloaded linux_host "linux-amd64" "gcop-rs" "ELF" made_world in
   download_binary linux_host serving cold_world
   = (Return (get_binary_path linux_host /: "gcop-rs"), w1) /\
   net_log w1 = (net_log cold_world ++ [asset_url "linux-amd64"])%list /\
   download_binary linux_host serving w1
   = (Return (get_binary_path linux_host /: "gcop-rs"), w1)).
Proof.
  split; [|split].
  - apply (proj1 (download_binary_idempotent linux_host serving)
             warm_world "linux-amd64" "gcop-rs" ("0.4.2" ++ newline) 0x81a4);
      reflexivity.
  - apply (proj1 (proj2 (download_binary_idempotent linux_host serving))
             cold_world (get_binary_path linux_host /: "gcop-rs") cached_world).
    reflexivity.
  - apply (proj2 (proj2 (download_binary_idempotent linux_host serving))
             cold_world made_world "linux-amd64" "gcop-rs" "ELF").
    + reflexivity.
    + reflexivity.
    + left. reflexivity.
    + reflexivity.
    + intros m H. by vm_compute in H.
    + intros m H. by vm_compute in H.
Defined.

(** C3, as stated, fails: a marker that differs from the expected version
    only by surrounding white space is another string, yet no transfer is
    made.  On [warm_world] the marker is "0.4.2" followed by a line feed. *)
Lemma version_bump_counterexample :
  ~ (forall (h : Host) (ext : Extern) (w : World) (ps bn c : string) (m : Z),
       get_binary_name h = Return (ps, bn) ->
       path_exists (fs w) (get_binary_path h /: bn) = true ->
       fs w !! (get_binary_path h /: "version") = Some (File c m) ->
       c <> __version__ ->
       net_log (snd (download_binary h ext w))
       = (net_log w ++ [asset_url ps])%list).
Proof.
  intros H.
  specialize (H linux_host serving warm_world "linux-amd64" "gcop-rs"
                ("0.4.2" ++ newline) 0x81a4).
  assert (download_binary linux_host serving warm_world
          = (Return (get_binary_path linux_host /: "gcop-rs"), warm_world))
    as E by reflexivity.
  rewrite E in H. cbn [snd] in H.
  assert ([] = [asset_url "linux-amd64"]) as Habs; [|done].
  apply H; try reflexivity. done.
Qed.

(** C3, amended.  When the binary exists and the marker holds ASCII text
    that, trimmed, is not the expected version, [download_binary] makes a
    transfer of the interpolated asset URL; when the transfer delivers a
    body, the binary file is overwritten with it and the marker is then
    overwritten with the expected version. *)
Theorem download_binary_version_bump (h : Host) (ext : Extern) (w : World)
    (ps bn c : string) (mv : Z) :
  get_binary_name h = Return (ps, bn) ->
  path_exists (fs w) (get_binary_path h /: bn) = true ->
  fs w !! (get_binary_path h /: "version") = Some (File c mv) ->
  is_ascii c = true ->
  strip c <> __version__ ->
  net_log (snd (download_binary h ext w))
  = (net_log w ++ [asset_url ps])%list /\
  (forall old mb body,
     fs w !! (get_binary_path h /: bn) = Some (File old mb) ->
     remote ext (List.length (net_log w)) (asset_url ps) = Fetched body ->
     exists w1,
       download_binary h ext w = (Return (get_binary_path h /: bn), w1) /\
       fs w1 !! (get_binary_path h /: bn)
       = Some (File body (executable_mode h mb)) /\
       fs w1 !! (get_binary_path h /: "version")
       = Some (File __version__ mv)).
Proof.
  intros Hn Hb Hv Ha Hs.
  pose proof (exists_child_is_dir _ _ _ Hb) as Hd.
  pose proof (Path_mkdir_existing h _ _ Hd) as Hm.
  pose proof (version_ne_binary h ps bn Hn) as Hne.
  assert (misses h bn (fs w)) as Hst by (right; right; eauto).
  split.
  - by apply (download_binary_one_transfer h ext w w ps bn).
  - intros old mb body Hold Hr. eexists. split.
    + apply (download_binary_fetched h ext w w ps bn body); try done.
      * intros m. by rewrite Hold.
      * intros m. by rewrite Hv.
    + unfold downloaded, mode_after_write. cbn [fs]. rewrite Hold, Hv.
      by rewrite lookup_insert_eq, lookup_insert_ne, lookup_insert_eq.
Qed.

Lemma download_binary_version_bump_witness :
  net_log (snd (download_binary linux_host serving stale_world))
  = ([] ++ [asset_url "linux-amd64"])%list /\
  exists w1,
    download_binary linux_host serving stale_world
    = (Return (get_binary_path linux_host /: "gcop-rs"), w1) /\
    fs w1 !! (get_binary_path linux_host /: "gcop-rs")
    = Some (File "ELF" (executable_mode linux_host 0x81ed)) /\
    fs w1 !! (get_binary_path linux_host /: "version")
    = Some (File __version__ 0x81a4).
Proof.
  assert (get_binary_name linux_host = Return ("linux-amd64", "gcop-rs"))
    as Hn by reflexivity.
  assert (path_exists (fs stale_world) (get_binary_path linux_host /: "gcop-rs")
          = true) as Hb by reflexivity.
  assert (fs stale_world !! (get_binary_path linux_host /: "version")
          = Some (File "0.4.1" 0x81a4)) as Hv by reflexivity.
  assert (is_ascii "0.4.1" = true) as Ha by reflexivity.
  assert (strip "0.4.1" <> __version__) as Hs by (by vm_compute).
  destruct (download_binary_version_bump linux_host serving stale_world
              "linux-amd64" "gcop-rs" "0.4.1" 0x81a4 Hn Hb Hv Ha Hs)
    as (H1 & H2).
  split; [exact H1|].
  apply (H2 "OLD" 0x81ed "ELF"); reflexivity.
Defined.

(** ** Dispatcher *)

(** C4.  Once [download_binary] has returned the path of the binary, [main]
    runs that binary with the arguments the wrapper received after its own
    name, unchanged and in order, and returns the exit code of the child:
    a child that exits with 7 makes [main] return 7. *)
Theorem main_forwards_arguments_and_exit_code (h : Host) (ext : Extern)
    (w w1 : World) (p : Path) (prog : string) (args : list string) (rc : Z) :
  argv h = prog :: args ->
  download_binary h ext w = (Return p, w1) ->
  child ext (str_of_Path h p :: args) (fs w1) = Exited rc ->
  main h ext w
  = (Return rc,
     mkWorld (fs w1) (net_log w1) (stderr w1)
             (spawned w ++ [str_of_Path h p :: args])) /\
  (rc = 7 -> fst (main h ext w) = Return 7).
Proof.
  intros Hargv H Hc.
  pose proof (download_binary_spawned h ext w) as Hsp.
  rewrite H in Hsp. cbn [snd] in Hsp.
  assert (main h ext w
          = (Return rc,
             mkWorld (fs w1) (net_log w1) (stderr w1)
                     (spawned w ++ [str_of_Path h p :: args]))) as E.
  { rewrite (main_fetched h ext w w1 p H).
    unfold try_except, subprocess_run, child_command.
    rewrite Hargv. simpl. rewrite drop_0. by rewrite Hc, Hsp. }
  split; [exact E|]. intros ->. by rewrite E.
Qed.

Lemma main_forwards_arguments_and_exit_code_witness :
  main linux_host serving cached_world
  = (Return 7,
     mkWorld (fs cached_world) (net_log cached_world) (stderr cached_world)
       (spawned cached_world
        ++ [["/home/dev/.cache/gcop-rs/bin/gcop-rs"; "commit"; "--yes"]])) /\
  fst (main linux_host serving cached_world) = Return 7.
Proof.
  destruct (main_forwards_arguments_and_exit_code linux_host serving
              cached_world cached_world
              (get_binary_path linux_host /: "gcop-rs")
              "gcop-rs" ["commit"; "--yes"] 7) as [H1 H2];
    [reflexivity..|].
  split; [exact H1 | by apply H2].
Defined.

(** C5.  When the run of the child is interrupted by the operator, that is
    [subprocess.run] raises [KeyboardInterrupt], [main] returns 130, whatever
    status the child had reported. *)
Theorem main_interrupted_run (h : Host) (ext : Extern) (w w1 : World)
    (p : Path) (e : exn) (reported : option Z) :
  download_binary h ext w = (Return p, w1) ->
  child ext (child_command h p) (fs w1) = RunRaised e reported ->
  is_KeyboardInterrupt e = true ->
  fst (main h ext w) = Return 130.
Proof.
  intros H Hc He. rewrite (main_fetched h ext w w1 p H).
  unfold try_except, subprocess_run. by rewrite Hc, He.
Qed.

Lemma main_interrupted_run_witness :
  fst (main linux_host interrupted_run cold_world) = Return 130.
Proof.
  apply (main_interrupted_run linux_host interrupted_run cold_world
           cached_world (get_binary_path linux_host /: "gcop-rs")
           (Exn KeyboardInterrupt "") (Some 3));
    reflexivity.
Defined.

(** C6.  When [download_binary] raises an ordinary exception, [main] writes
    "Error: " and the message to the diagnostic stream and returns 1, and no
    child has been started.  A transfer that fails with an ordinary
    exception makes [download_binary] raise a [RuntimeError] whose message
    holds the URL and the message of the cause, with the cause attached,
    and the transfer is not tried again. *)
Theorem main_reports_fetch_failure (h : Host) (ext : Extern) (w : World) :
  (forall e w1,
     download_binary h ext w = (Raise e, w1) ->
     is_Exception e = true ->
     main h ext w
     = (Return 1,
        mkWorld (fs w1) (net_log w1)
                (stderr w1 ++ ["Error: " ++ exn_str e]) (spawned w))) /\
  (forall ps bn w0 e w2,
     get_binary_name h = Return (ps, bn) ->
     Path_mkdir h (get_binary_path h) w = (Return tt, w0) ->
     stale h bn (fs w0) ->
     urlretrieve h ext (asset_url ps) (get_binary_path h /: bn)
       (announced ps w0) = (Raise e, w2) ->
     is_Exception e = true ->
     let failure :=
       ExnFrom RuntimeError
         ("Failed to download binary from " ++ asset_url ps ++ ": "
          ++ exn_str e) e in
     download_binary h ext w = (Raise failure, w2) /\
     exn_cause failure = Some e /\
     net_log w2 = (net_log w ++ [asset_url ps])%list /\
     main h ext w
     = (Return 1,
        mkWorld (fs w2) (net_log w2)
                (stderr w2 ++ ["Error: " ++ exn_str failure]) (spawned w))).
Proof.
  assert (forall e w1,
            download_binary h ext w = (Raise e, w1) ->
            is_Exception e = true ->
            main h ext w
            = (Return 1,
               mkWorld (fs w1) (net_log w1)
                       (stderr w1 ++ ["Error: " ++ exn_str e]) (spawned w)))
    as Hmain.
  { intros e w1 H He.
    pose proof (download_binary_spawned h ext w) as Hsp.
    rewrite H in Hsp. cbn [snd] in Hsp.
    by rewrite (main_not_fetched h ext w w1 e H), He, Hsp. }
  split; [exact Hmain|].
  intros ps bn w0 e w2 Hn Hm Hst%stale_misses Hu He failure.
  assert (download_binary h ext w = (Raise failure, w2)) as Hd.
  { rewrite (download_binary_stale h ext w w0 ps bn) by done.
    by rewrite Hu, He. }
  split_and!; [exact Hd | done | | by apply Hmain].
  pose proof (download_binary_one_transfer h ext w w0 ps bn Hn Hm Hst) as H1.
  by rewrite Hd in H1.
Qed.

Lemma main_reports_fetch_failure_witness :
  fst (main linux_host unreachable cold_world) = Return 1 /\
  spawned (snd (main linux_host unreachable cold_world)) = [].
Proof.
  destruct (main_reports_fetch_failure linux_host unreachable cold_world)
    as [_ H].
  destruct (H "linux-amd64" "gcop-rs" made_world
              (Exn URLError "<urlopen error timed out>") failed_world)
    as (_ & _ & _ & E).
  - reflexivity.
  - reflexivity.
  - left. reflexivity.
  - reflexivity.
  - reflexivity.
  - by rewrite E.
Defined.

(** C9.  An interrupt of the operator that ends the transfer is not an
    ordinary exception: [download_binary] does not wrap it, the handler of
    [main] around the fetch does not catch it (so [main] does not return 1),
    the handler that returns 130 is not reached, and no child is started.
    The interrupt leaves [main] as it was raised. *)
Theorem main_interrupted_fetch (h : Host) (ext : Extern) (w w0 w2 : World)
    (ps bn : string) (e : exn) :
  get_binary_name h = Return (ps, bn) ->
  Path_mkdir h (get_binary_path h) w = (Return tt, w0) ->
  stale h bn (fs w0) ->
  urlretrieve h ext (asset_url ps) (get_binary_path h /: bn)
    (announced ps w0) = (Raise e, w2) ->
  is_KeyboardInterrupt e = true ->
  download_binary h ext w = (Raise e, w2) /\
  main h ext w = (Raise e, w2) /\
  spawned w2 = spawned w.
Proof.
  intros Hn Hm Hst%stale_misses Hu He.
  assert (is_Exception e = false) as Hne.
  { unfold is_KeyboardInterrupt in He. unfold is_Exception.
    by destruct (exn_cls e). }
  assert (download_binary h ext w = (Raise e, w2)) as Hd.
  { rewrite (download_binary_stale h ext w w0 ps bn) by done.
    by rewrite Hu, Hne. }
  split_and!; [exact Hd | |].
  - by rewrite (main_not_fetched h ext w w2 e Hd), Hne.
  - pose proof (download_binary_spawned h ext w) as Hsp.
    by rewrite Hd in Hsp.
Qed.

Lemma main_interrupted_fetch_witness :
  fst (main linux_host interrupted_fetch cold_world)
  = Raise (Exn KeyboardInterrupt "").
Proof.
  destruct (main_interrupted_fetch linux_host interrupted_fetch cold_world
              made_world partial_world
              "linux-amd64" "gcop-rs" (Exn KeyboardInterrupt ""))
    as (_ & E & _).
  - reflexivity.
  - reflexivity.
  - left. reflexivity.
  - reflexivity.
  - reflexivity.
  - by rewrite E.
Defined.

(** ** Cache Locator *)

(** C7, as stated, fails: [get_binary_path] only computes the path.  On a
    host with nothing cached the directory it names does not exist after
    the call. *)
Lemma get_binary_path_counterexample :
  ~ (forall (h : Host) (w : World),
       exists d w',
         (mret (get_binary_path h) : IO Path) w = (Return d, w') /\
         is_dir (fs w') d = true).
Proof.
  intros H. destruct (H linux_host cold_world) as (d & w' & E & Hd).
  injection E as <- <-. by vm_compute in Hd.
Qed.

(** C7, amended.  [get_binary_path] returns the cache root of the platform
    extended by "gcop-rs" and "bin": the root is [LOCALAPPDATA], or
    AppData/Local under the home directory, on Windows; Library/Caches under
    the home directory on macOS; [XDG_CACHE_HOME], or .cache under the home
    directory, elsewhere.  The call itself changes nothing.  It is
    [download_binary], its caller, that makes the directory once the platform
    is resolved: if [mkdir(parents=True, exist_ok=True)] succeeds, the
    directory and all its parents exist, making it again changes nothing,
    and the directory still exists when [download_binary] ends; if it
    raises, so does [download_binary].  It succeeds whenever no regular file
    is in the way. *)
Theorem get_binary_path_and_mkdir (h : Host) (ext : Extern) (w : World) :
  let d := get_binary_path h in
  (system h = "Windows" ->
   d = match environ h !! "LOCALAPPDATA" with
       | Some v => Path_of_str h v
       | None => home h /: "AppData" /: "Local"
       end /: "gcop-rs" /: "bin") /\
  (system h = "Darwin" ->
   d = home h /: "Library" /: "Caches" /: "gcop-rs" /: "bin") /\
  (system h <> "Windows" -> system h <> "Darwin" ->
   d = match environ h !! "XDG_CACHE_HOME" with
       | Some v => Path_of_str h v
       | None => home h /: ".cache"
       end /: "gcop-rs" /: "bin") /\
  (mret d : IO Path) w = (Return d, w) /\
  (forall ps bn,
     get_binary_name h = Return (ps, bn) ->
     match Path_mkdir h d w with
     | (Raise e, w') => download_binary h ext w = (Raise e, w')
     | (Return _, w0) =>
         is_dir (fs w0) d = true /\
         (forall q, q ∈ prefixes d -> is_dir (fs w0) q = true) /\
         Path_mkdir h d w0 = (Return tt, w0) /\
         is_dir (fs (snd (download_binary h ext w))) d = true
     end) /\
  (no_file_on d (fs w) -> exists w0, Path_mkdir h d w = (Return tt, w0)).
Proof.
  intros d. split_and!.
  - intros Hs. unfold d, get_binary_path. by rewrite Hs.
  - intros Hs. unfold d, get_binary_path. by rewrite Hs.
  - intros H1%String.eqb_neq H2%String.eqb_neq.
    unfold d, get_binary_path. by rewrite H1, H2.
  - done.
  - intros ps bn Hn.
    destruct (Path_mkdir h d w) as [[[]|e] w0] eqn:Hm.
    + pose proof (Path_mkdir_ok h _ _ _ Hm) as (Hd & _ & _).
      split_and!; [done | | by apply Path_mkdir_existing |].
      * intros q Hq. by apply (is_dir_prefix _ d).
      * rewrite (download_binary_after_mkdir h ext w w0 ps bn Hn Hm).
        destruct (dir_is_stable d) as (H1 & H2 & H3).
        by apply (preserves_download_binary h ext _ H1 H2 H3).
    + unfold download_binary.
      erewrite bind_Return; [|unfold eval; rewrite Hn; reflexivity]. simpl.
      erewrite bind_Return; [|reflexivity].
      erewrite bind_Raise; [|exact Hm]. done.
  - apply Path_mkdir_total.
Qed.

Lemma get_binary_path_and_mkdir_witness :
  get_binary_path windows_host
  = mkPath "C:\" ["Users"; "dev"; "AppData"; "Local"; "gcop-rs"; "bin"] /\
  get_binary_path macos_host
  = mkPath "/" ["Users"; "dev"; "Library"; "Caches"; "gcop-rs"; "bin"] /\
  get_binary_path linux_xdg_host
  = mkPath "/" ["var"; "cache"; "dev"; "gcop-rs"; "bin"] /\
  is_dir (fs (snd (download_binary linux_host serving cold_world)))
    (get_binary_path linux_host) = true /\
  exists w0,
    Path_mkdir linux_host (get_binary_path linux_host) cold_world
    = (Return tt, w0).
Proof.
  split_and!.
  - by rewrite (proj1 (get_binary_path_and_mkdir windows_host serving
                         cold_world) eq_refl).
  - by rewrite (proj1 (proj2 (get_binary_path_and_mkdir macos_host serving
                                cold_world)) eq_refl).
  - rewrite (proj1 (proj2 (proj2 (get_binary_path_and_mkdir linux_xdg_host
                                     serving cold_world)))); by vm_compute.
  - pose proof (proj1 (proj2 (proj2 (proj2 (proj2
        (get_binary_path_and_mkdir linux_host serving cold_world)))))
        "linux-amd64" "gcop-rs" eq_refl) as H.
    assert (Path_mkdir linux_host (get_binary_path linux_host) cold_world
            = (Return tt, made_world)) as E by reflexivity.
    rewrite E in H. apply H.
  - apply (proj2 (proj2 (proj2 (proj2 (proj2
        (get_binary_path_and_mkdir linux_host serving cold_world)))))).
    intros q c m _. by vm_compute.
Defined.

(** C10.  On Windows the cache root of [get_binary_path] is the value of
    [LOCALAPPDATA] when the variable is set, and AppData/Local under the
    home directory of the user when it is not. *)
Theorem get_binary_path_windows (h : Host) :
  system h = "Windows" ->
  (forall v, environ h !! "LOCALAPPDATA" = Some v ->
     get_binary_path h = Path_of_str h v /: "gcop-rs" /: "bin") /\
  (environ h !! "LOCALAPPDATA" = None ->
   get_binary_path h
   = home h /: "AppData" /: "Local" /: "gcop-rs" /: "bin").
Proof.
  intros Hs. unfold get_binary_path. rewrite Hs. simpl.
  split; [intros v E | intros E]; by rewrite E.
Qed.

Lemma get_binary_path_windows_witness :
  get_binary_path windows_host
  = windows_Path "C:\Users\dev\AppData\Local" /: "gcop-rs" /: "bin" /\
  get_binary_path windows_bare_host
  = mkPath "C:\" ["Users"; "dev"; "AppData"; "Local"; "gcop-rs"; "bin"].
Proof.
  split.
  - apply (proj1 (get_binary_path_windows windows_host eq_refl)
             "C:\Users\dev\AppData\Local").
    reflexivity.
  - apply (proj2 (get_binary_path_windows windows_bare_host eq_refl)).
    reflexivity.
Defined.

(** ** Fetcher: the executable bits *)

Lemma testbit_above (a i : Z) :
  0 <= a < 4096 -> 12 <= i -> Z.testbit a i = false.
Proof.
  intros Ha Hi. destruct (decide (a = 0)) as [->|Hne].
  - apply Z.bits_0.
  - apply Z.bits_above_log2; [lia|].
    assert (Z.log2 a < 12); [|lia].
    apply Z.log2_lt_pow2; [lia|]. change (2 ^ 12) with 4096. lia.
Qed.

(** [chmod(p, m | S_IXUSR | S_IXGRP | S_IXOTH)] on a file of mode [m] sets
    three bits and nothing else. *)
Lemma chmod_executable (m : Z) :
  chmod_mode m (Z.lor (Z.lor (Z.lor m S_IXUSR) S_IXGRP) S_IXOTH)
  = Z.lor m 0x49.
Proof.
  unfold chmod_mode, S_IXUSR, S_IXGRP, S_IXOTH.
  apply Z.bits_inj'. intros i Hi.
  rewrite !Z.lor_spec, !Z.land_spec, Z.lnot_spec, !Z.lor_spec by done.
  destruct (Z_lt_le_dec i 12) as [Hlt|Hge].
  - assert (i = 0 \/ i = 1 \/ i = 2 \/ i = 3 \/ i = 4 \/ i = 5 \/ i = 6 \/
            i = 7 \/ i = 8 \/ i = 9 \/ i = 10 \/ i = 11) as Hcases by lia.
    repeat (destruct Hcases as [-> | Hcases]); try subst i;
      by destruct (Z.testbit m _).
  - rewrite (testbit_above 0xfff i), (testbit_above 0x40 i),
      (testbit_above 0x08 i), (testbit_above 0x01 i), (testbit_above 0x49 i)
      by lia.
    by destruct (Z.testbit m i).
Qed.

Lemma testbit_0x49 (i : Z) :
  Z.testbit 0x49 i = bool_decide (i = 0 \/ i = 3 \/ i = 6).
Proof.
  destruct (Z_lt_le_dec i 0) as [Hneg|Hpos].
  - rewrite Z.testbit_neg_r by done. by rewrite bool_decide_eq_false_2 by lia.
  - destruct (Z_lt_le_dec i 12) as [Hlt|Hge].
    + assert (i = 0 \/ i = 1 \/ i = 2 \/ i = 3 \/ i = 4 \/ i = 5 \/ i = 6 \/
              i = 7 \/ i = 8 \/ i = 9 \/ i = 10 \/ i = 11) as Hcases by lia.
      repeat (destruct Hcases as [-> | Hcases]); try subst i; done.
    + rewrite testbit_above by (done || lia).
      by rewrite bool_decide_eq_false_2 by lia.
Qed.

(** C8.  After a successful download on a host whose system is not
    "Windows", the mode of the binary has the owner, group and other
    execute bits (bits 6, 3 and 0) set and every other bit as the file had it
    when the transfer ended; on "Windows" the mode is the one the file had
    when the transfer ended. *)
Theorem download_binary_sets_executable_bits (h : Host) (ext : Extern)
    (w w0 : World) (ps bn body : string) :
  get_binary_name h = Return (ps, bn) ->
  Path_mkdir h (get_binary_path h) w = (Return tt, w0) ->
  stale h bn (fs w0) ->
  remote ext (List.length (net_log w0)) (asset_url ps) = Fetched body ->
  (forall m, fs w0 !! (get_binary_path h /: bn) <> Some (Dir m)) ->
  (forall m, fs w0 !! (get_binary_path h /: "version") <> Some (Dir m)) ->
  let existing := mode_after_write h (fs w0) (get_binary_path h /: bn) in
  exists w1 mode,
    download_binary h ext w = (Return (get_binary_path h /: bn), w1) /\
    fs w1 !! (get_binary_path h /: bn) = Some (File body mode) /\
    (system h <> "Windows" ->
     Z.testbit mode 6 = true /\ Z.testbit mode 3 = true /\
     Z.testbit mode 0 = true /\
     forall i, i <> 6 -> i <> 3 -> i <> 0 ->
               Z.testbit mode i = Z.testbit existing i) /\
    (system h = "Windows" -> mode = existing).
Proof.
  intros Hn Hm Hst%stale_misses Hr Hb Hv existing.
  pose proof (version_ne_binary h ps bn Hn) as Hne.
  exists (downloaded h ps bn body w0), (executable_mode h existing).
  split_and!.
  - by apply download_binary_fetched.
  - unfold downloaded. cbn [fs].
    by rewrite lookup_insert_ne, lookup_insert_eq.
  - intros Hs%String.eqb_neq. unfold executable_mode. rewrite Hs.
    rewrite chmod_executable.
    split_and!; try (rewrite Z.lor_spec, testbit_0x49; apply orb_true_r).
    intros i H6 H3 H0. rewrite Z.lor_spec, testbit_0x49.
    rewrite bool_decide_eq_false_2 by lia. apply orb_false_r.
  - intros Hs. unfold executable_mode. by rewrite Hs.
Qed.

Lemma download_binary_sets_executable_bits_witness :
  (exists w1 mode,
     download_binary linux_host serving cold_world
     = (Return (get_binary_path linux_host /: "gcop-rs"), w1) /\
     fs w1 !! (get_binary_path linux_host /: "gcop-rs")
     = Some (File "ELF" mode) /\
     Z.testbit mode 6 = true /\ Z.testbit mode 3 = true /\
     Z.testbit mode 0 = true /\
     forall i, i <> 6 -> i <> 3 -> i <> 0 ->
               Z.testbit mode i = Z.testbit 0x81a4 i) /\
  (exists w1,
     download_binary windows_host serving cold_world
     = (Return (get_binary_path windows_host /: "gcop-rs.exe"), w1) /\
     fs w1 !! (get_binary_path windows_host /: "gcop-rs.exe")
     = Some (File "ELF" 0x81b6)).
Proof.
  split.
  - destruct (download_binary_sets_executable_bits linux_host serving
                cold_world made_world "linux-amd64" "gcop-rs" "ELF")
      as (w1 & mode & H1 & H2 & H3 & _).
    + reflexivity.
    + reflexivity.
    + left. reflexivity.
    + reflexivity.
    + intros m H. by vm_compute in H.
    + intros m H. by vm_compute in H.
    + exists w1, mode. split; [exact H1|]. split; [exact H2|].
      apply H3. by vm_compute.
  - destruct (download_binary_sets_executable_bits windows_host serving
                cold_world windows_made_world
                "windows-amd64.exe" "gcop-rs.exe" "ELF")
      as (w1 & mode & H1 & H2 & _ & H4).
    + reflexivity.
    + reflexivity.
    + left. reflexivity.
    + reflexivity.
    + intros m H. by vm_compute in H.
    + intros m H. by vm_compute in H.
    + exists w1. split; [exact H1|]. rewrite H2. rewrite (H4 eq_refl).
      reflexivity.
Defined.

(** * Further properties *)

(** ** Failures before the transfer *)

Lemma get_binary_name_Raise (h : Host) (e : exn) :
  get_binary_name h = Raise e ->
  is_Exception e = true /\
  (e = Exn RuntimeError ("Unsupported architecture: " ++ lower (machine h)) \/
   e = Exn RuntimeError
         ("Unsupported operating system: " ++ lower (system h))).
Proof.
  unfold get_binary_name.
  repeat (match goal with
          | |- context [if ?b then _ else _] => destruct b
          end; simpl);
    intros H; try discriminate; injection H as <-; (split; [done | auto]).
Qed.

Lemma download_binary_unresolved (h : Host) (ext : Extern) (w : World)
    (e : exn) :
  get_binary_name h = Raise e -> download_binary h ext w = (Raise e, w).
Proof.
  intros Hn. unfold download_binary.
  erewrite bind_Raise; [done|]. unfold eval. by rewrite Hn.
Qed.

(** X1.  On a platform [get_binary_name] does not support, [main] returns 1
    after writing "Error: " and the message of the resolver to the
    diagnostic stream; no directory is made, nothing is requested from the
    network and no program is started. *)
Theorem main_unsupported_platform (h : Host) (ext : Extern) (w : World)
    (e : exn) :
  get_binary_name h = Raise e ->
  main h ext w
  = (Return 1,
     mkWorld (fs w) (net_log w) (stderr w ++ ["Error: " ++ exn_str e])
             (spawned w)) /\
  (exn_str e = "Unsupported architecture: " ++ lower (machine h) \/
   exn_str e = "Unsupported operating system: " ++ lower (system h)).
Proof.
  intros Hn. destruct (get_binary_name_Raise h e Hn) as [He Hmsg].
  split.
  - rewrite (main_not_fetched h ext w w e (download_binary_unresolved h ext w e Hn)).
    by rewrite He.
  - destruct Hmsg as [-> | ->]; auto.
Qed.

Lemma main_unsupported_platform_witness :
  main solaris_host serving cold_world
  = (Return 1,
     mkWorld ∅ [] ["Error: Unsupported architecture: sun4v"] []).
Proof.
  apply (proj1 (main_unsupported_platform solaris_host serving cold_world
                  (Exn RuntimeError "Unsupported architecture: sun4v")
                  eq_refl)).
Defined.

Section MkdirFailure.

Context (h : Host).

Lemma os_mkdir_effect (p : Path) (w : World) :
  (exists e, os_mkdir h p w = (Raise e, w) /\ is_Exception e = true) \/
  (names p <> [] /\
   os_mkdir h p w
   = (Return tt, set_fs w (<[p := Dir (new_dir_mode h)]> (fs w)))).
Proof.
  unfold os_mkdir. destruct (names p) eqn:N; [left; eauto|].
  destruct (resolve (fs w) p) as [c|] eqn:R.
  - left. apply first_non_dir_Some in R as [-> | [-> _]]; eauto.
  - destruct (fs w !! p); [left; eauto | right; done].
Qed.

Lemma mkdir_leaf_effect (b : bool) (p : Path) (w : World) :
  (exists e, mkdir_leaf h b p w = (Raise e, w) /\ is_Exception e = true) \/
  mkdir_leaf h b p w = (Return tt, w) \/
  (names p <> [] /\
   mkdir_leaf h b p w
   = (Return tt, set_fs w (<[p := Dir (new_dir_mode h)]> (fs w)))).
Proof.
  unfold mkdir_leaf.
  destruct (os_mkdir_effect p w) as [(e & -> & He) | [Hn ->]]; [|auto].
  destruct (exn_cls e); try (left; by eauto);
    destruct (is_OSError e && b && is_dir (fs w) p); auto; left; eauto.
Qed.

(** Whatever its outcome, [mkdir(parents=True)] raises ordinary exceptions
    only, and touches nothing but missing prefixes of its path. *)
Lemma mkdir_parents_any (a : string) (rn : list string) :
  forall (b : bool) (w : World),
    let r := mkdir_parents h b a rn w in
    (forall e, fst r = Raise e -> is_Exception e = true) /\
    same_io w (snd r) /\
    (forall q, q ∉ prefixes (mkPath a (rev rn)) ->
               fs (snd r) !! q = fs w !! q).
Proof.
  assert (forall p w q, q ∉ prefixes p -> names p <> [] ->
            <[p := Dir (new_dir_mode h)]> (fs w) !! q = fs w !! q) as Hins.
  { intros p w q Hq Hn. apply lookup_insert_ne. intros <-. apply Hq.
    rewrite prefixes_split by done. apply elem_of_app. right. by left. }
  induction rn as [|x rn IH]; intros b w; rewrite mkdir_parents_eq.
  - destruct (os_mkdir_effect (mkPath a (rev [])) w)
      as [(e & -> & He) | [Hn ->]].
    + destruct (exn_cls e) eqn:C;
        try destruct (is_OSError e && b && is_dir (fs w) (mkPath a (rev [])));
        cbn [fst snd]; (split_and!; [by intros ? [= <-] || done | done | done]).
    + cbn [fst snd]. split_and!; [done | done |]. intros q Hq. by apply Hins.
  - set (p := mkPath a (rev (x :: rn))).
    destruct (os_mkdir_effect p w) as [(e & -> & He) | [Hn ->]].
    + destruct (exn_cls e) eqn:C;
        try (destruct (is_OSError e && b && is_dir (fs w) p);
             cbn [fst snd];
             (split_and!; [by intros ? [= <-] || done | done | done])).
      destruct (IH true w) as (H1 & H2 & H3).
      destruct (mkdir_parents h true a rn w) as [[[]|e1] w1].
      * cbn [fst snd] in *.
        assert (forall q, q ∉ prefixes p -> fs w1 !! q = fs w !! q) as H3'.
        { intros q Hq. apply H3. intros Hin. apply Hq.
          by apply (prefixes_parent_sub a x rn). }
        destruct (mkdir_leaf_effect b p w1)
          as [(e2 & -> & He2) | [-> | [Hn ->]]]; cbn [fst snd].
        -- split_and!; [by intros ? [= <-] | done | done].
        -- split_and!; [done | done | done].
        -- split_and!; [done | done |]. intros q Hq.
           rewrite <- H3' by done. by apply Hins.
      * cbn [fst snd] in *. split_and!; [done | done |].
        intros q Hq. apply H3. intros Hin. apply Hq.
        by apply (prefixes_parent_sub a x rn).
    + cbn [fst snd]. split_and!; [done | done |]. intros q Hq. by apply Hins.
Qed.

Lemma Path_mkdir_any (p : Path) (w : World) :
  let r := Path_mkdir h p w in
  (forall e, fst r = Raise e -> is_Exception e = true) /\
  same_io w (snd r) /\
  (forall q, q ∉ prefixes p -> fs (snd r) !! q = fs w !! q).
Proof.
  pose proof (mkdir_parents_any (anchor p) (rev (names p)) true w) as H.
  by rewrite rev_involutive, path_eta in H.
Qed.

End MkdirFailure.

Lemma download_binary_mkdir_failed (h : Host) (ext : Extern) (w w' : World)
    (ps bn : string) (e : exn) :
  get_binary_name h = Return (ps, bn) ->
  Path_mkdir h (get_binary_path h) w = (Raise e, w') ->
  download_binary h ext w = (Raise e, w').
Proof.
  intros Hn Hm. unfold download_binary.
  erewrite bind_Return; [|unfold eval; rewrite Hn; reflexivity]. simpl.
  erewrite bind_Return; [|reflexivity].
  erewrite bind_Raise; [|exact Hm]. done.
Qed.

(** X2.  When the cache directory cannot be made, [main] returns 1 after
    reporting the error of [mkdir]; nothing has been requested from the
    network, no program has been started, and the entries below the cache
    directory are as they were. *)
Theorem main_cache_dir_blocked (h : Host) (ext : Extern) (w w' : World)
    (ps bn : string) (e : exn) :
  get_binary_name h = Return (ps, bn) ->
  Path_mkdir h (get_binary_path h) w = (Raise e, w') ->
  main h ext w
  = (Return 1,
     mkWorld (fs w') (net_log w) (stderr w ++ ["Error: " ++ exn_str e])
             (spawned w)) /\
  forall name, fs w' !! (get_binary_path h /: name)
               = fs w !! (get_binary_path h /: name).
Proof.
  intros Hn Hm.
  destruct (Path_mkdir_any h (get_binary_path h) w) as (He & Hio & Hfs).
  rewrite Hm in He, Hio, Hfs. cbn [fst snd] in *.
  destruct Hio as (Hlog & Herr & Hsp). split.
  - rewrite (main_not_fetched h ext w w' e
               (download_binary_mkdir_failed h ext w w' ps bn e Hn Hm)).
    rewrite (He e eq_refl). by rewrite Hlog, Herr, Hsp.
  - intros name. apply Hfs, child_not_in_prefixes.
Qed.

Lemma main_cache_dir_blocked_witness :
  main linux_host serving blocked_world
  = (Return 1,
     mkWorld (fs blocked_world) []
       ["Error: [Errno 20] Not a directory: '/home/dev/.cache/gcop-rs/bin'"]
       []).
Proof.
  apply (proj1 (main_cache_dir_blocked linux_host serving blocked_world
                  blocked_world "linux-amd64" "gcop-rs"
                  (Exn NotADirectoryError
                     "[Errno 20] Not a directory: '/home/dev/.cache/gcop-rs/bin'")
                  eq_refl eq_refl)).
Defined.

(** ** The state of the cache *)

Section CacheCases.

Context (h : Host) (ext : Extern).

Local Abbreviation bin_dir := (get_binary_path h).

(** The three states [download_binary] tells apart once the directory is
    there: the cache is valid, the marker cannot be read, the cache is
    stale. *)
Lemma cache_cases (bn : string) (f : FS) :
  (exists x c m, f !! (bin_dir /: bn) = Some x /\
                 f !! (bin_dir /: "version") = Some (File c m) /\
                 strip c = __version__) \/
  (exists x m, f !! (bin_dir /: bn) = Some x /\
               f !! (bin_dir /: "version") = Some (Dir m)) \/
  misses h bn f.
Proof.
  unfold misses.
  destruct (f !! (bin_dir /: bn)) as [x|]; [|auto].
  destruct (f !! (bin_dir /: "version")) as [[m|c m]|]; [eauto 6| |auto].
  destruct (decide (strip c = __version__)); [left|]; eauto 10.
Qed.

Lemma get_binary_name_Return (ps bn : string) :
  get_binary_name h = Return (ps, bn) ->
  (ps, bn) ∈ [ ("macos-amd64", "gcop-rs"); ("macos-arm64", "gcop-rs");
               ("linux-amd64", "gcop-rs"); ("linux-arm64", "gcop-rs");
               ("windows-amd64.exe", "gcop-rs.exe");
               ("windows-aarch64.exe", "gcop-rs.exe") ].
Proof.
  unfold get_binary_name.
  repeat (match goal with
          | |- context [if ?b then _ else _] => destruct b
          end; simpl);
    intros H; try discriminate; injection H as <- <-;
    repeat (first [by left | right]).
Qed.

(** X3.  The version is recorded only after the transfer.  When the cache
    is stale and the transfer raises, [download_binary] raises (the
    "Failed to download binary" [RuntimeError] for an [Exception], the
    exception itself otherwise), the world is as the transfer left it, and
    the entry of the version marker is as it was before the call. *)
Theorem download_binary_failed_transfer_keeps_marker (w w0 w2 : World)
    (ps bn : string) (e : exn) :
  get_binary_name h = Return (ps, bn) ->
  Path_mkdir h bin_dir w = (Return tt, w0) ->
  stale h bn (fs w0) ->
  urlretrieve h ext (asset_url ps) (bin_dir /: bn) (announced ps w0)
  = (Raise e, w2) ->
  download_binary h ext w
  = (Raise (if is_Exception e
            then ExnFrom RuntimeError
                   ("Failed to download binary from " ++ asset_url ps
                    ++ ": " ++ exn_str e) e
            else e), w2) /\
  fs w2 !! (bin_dir /: "version") = fs w !! (bin_dir /: "version").
Proof.
  intros Hn Hm Hst%stale_misses Hu.
  pose proof (version_ne_binary h ps bn Hn) as Hne.
  split.
  - rewrite (download_binary_stale h ext w w0 ps bn) by done. by rewrite Hu.
  - pose proof (urlretrieve_elsewhere h ext (asset_url ps) (bin_dir /: bn)
                  (bin_dir /: "version") (announced ps w0) Hne) as Hk.
    rewrite Hu in Hk. cbn [snd announced fs] in Hk. rewrite Hk.
    destruct (Path_mkdir_any h bin_dir w) as (_ & _ & Hfs).
    rewrite Hm in Hfs. cbn [snd] in Hfs.
    apply Hfs, child_not_in_prefixes.
Qed.

(** X5.  Whatever its outcome, a call of [download_binary] requests at most
    one URL, and only the URL of one of the six release assets of the
    expected version. *)
Theorem download_binary_at_most_one_transfer (w : World) :
  net_log (snd (download_binary h ext w)) = net_log w \/
  exists ps,
    ps ∈ ["macos-amd64"; "macos-arm64"; "linux-amd64"; "linux-arm64";
          "windows-amd64.exe"; "windows-aarch64.exe"] /\
    net_log (snd (download_binary h ext w))
    = (net_log w ++ [asset_url ps])%list.
Proof.
  destruct (get_binary_name h) as [[ps bn]|e0] eqn:Hn.
  2:{ left. by rewrite (download_binary_unresolved h ext w e0 Hn). }
  destruct (Path_mkdir_any h bin_dir w) as (_ & (Hlog & _) & _).
  destruct (Path_mkdir h bin_dir w) as [[[]|e0] w0] eqn:Hm.
  2:{ left.
      by rewrite (download_binary_mkdir_failed h ext w w0 ps bn e0 Hn Hm). }
  cbn [snd] in Hlog.
  destruct (cache_cases bn (fs w0))
    as [(x & c & m & Hb & Hv & Hs) | [(x & m & Hb & Hv) | Hst]].
  - left. by rewrite (download_binary_hit_in h ext w w0 ps bn c x m).
  - left.
    by rewrite (download_binary_marker_unreadable h ext w w0 ps bn x m).
  - right. exists ps. split.
    + apply get_binary_name_Return in Hn.
      repeat (apply elem_of_cons in Hn as [[= -> ->] | Hn];
              [repeat (first [by left | right])|]).
      by apply elem_of_nil in Hn.
    + by apply (download_binary_one_transfer h ext w w0 ps bn).
Qed.

(** X9.  When [download_binary] returns, it returns "gcop-rs" or
    "gcop-rs.exe" in the cache directory; that path exists and is not the
    path of the version marker; and, the marker having held ASCII text if
    it was a file before the call, the marker is a file of ASCII text that,
    trimmed of surrounding white space, is the expected version. *)
Theorem download_binary_postcondition (w w1 : World) (p : Path) :
  (forall c m, fs w !! (bin_dir /: "version") = Some (File c m) ->
               is_ascii c = true) ->
  download_binary h ext w = (Return p, w1) ->
  (p = bin_dir /: "gcop-rs" \/ p = bin_dir /: "gcop-rs.exe") /\
  p <> bin_dir /: "version" /\
  path_exists (fs w1) p = true /\
  exists c m, fs w1 !! (bin_dir /: "version") = Some (File c m) /\
              is_ascii c = true /\ strip c = __version__.
Proof.
  intros Ha H.
  apply download_binary_Return in H as (ps & bn & w0 & Hn & -> & Hm & Hcase).
  pose proof (version_ne_binary h ps bn Hn) as Hne.
  destruct (Path_mkdir_any h bin_dir w) as (_ & _ & Hfs).
  rewrite Hm in Hfs. cbn [snd] in Hfs.
  specialize (Hfs (bin_dir /: "version") (child_not_in_prefixes _ _)).
  apply Path_mkdir_ok in Hm as (Hd & _ & _).
  split_and!.
  - apply get_binary_name_Return in Hn.
    repeat (apply elem_of_cons in Hn as [[= -> ->] | Hn]; [by auto|]).
    by apply elem_of_nil in Hn.
  - done.
  - destruct Hcase as [(x & c & m & Hb & Hv & Hs & ->)
                      | (_ & body & _ & ->)].
    + by rewrite path_exists_child, Hb.
    + destruct (downloaded_cache h w0 ps bn body Hn Hd)
        as (Hd1 & [mb Hb1] & _).
      by rewrite path_exists_child, Hb1.
  - destruct Hcase as [(x & c & m & Hb & Hv & Hs & ->)
                      | (_ & body & _ & ->)].
    + exists c, m. split_and!; [done | | done].
      apply (Ha c m). by rewrite <- Hfs.
    + destruct (downloaded_cache h w0 ps bn body Hn Hd)
        as (_ & _ & [mv Hv1]).
      exists __version__, mv. done.
Qed.

(** X4.  A transfer that breaks off after the target file was opened
    leaves what it had written at the path of the binary.  If the marker
    already held the expected version (the binary alone was missing), the
    next call finds both and returns the truncated file as the cached
    binary, without a transfer. *)
Theorem download_binary_truncated_binary_accepted (w w0 : World)
    (ps bn c part : string) (m : Z) (e : exn) :
  get_binary_name h = Return (ps, bn) ->
  Path_mkdir h bin_dir w = (Return tt, w0) ->
  fs w0 !! (bin_dir /: bn) = None ->
  fs w0 !! (bin_dir /: "version") = Some (File c m) ->
  strip c = __version__ ->
  remote ext (List.length (net_log w0)) (asset_url ps)
  = FetchFailed e (Some part) ->
  exists e' w1,
    download_binary h ext w = (Raise e', w1) /\
    fs w1 !! (bin_dir /: bn) = Some (File part (new_file_mode h)) /\
    download_binary h ext w1 = (Return (bin_dir /: bn), w1).
Proof.
  intros Hn Hm Hb Hv Hs Hr.
  pose proof (Path_mkdir_ok h _ _ _ Hm) as (Hd & _ & _).
  pose proof (version_ne_binary h ps bn Hn) as Hne.
  set (w1 := mkWorld (<[bin_dir /: bn := File part (new_file_mode h)]> (fs w0))
               (net_log w0 ++ [asset_url ps]) (stderr (announced ps w0))
               (spawned w0)).
  assert (urlretrieve h ext (asset_url ps) (bin_dir /: bn) (announced ps w0)
          = (Raise e, w1)) as Hu.
  { unfold urlretrieve. cbn [announced fs net_log stderr spawned]. rewrite Hr.
    rewrite open_write_child by done. cbn [fs].
    unfold mode_after_write. by rewrite Hb. }
  eexists _, w1. split_and!.
  - rewrite (download_binary_stale h ext w w0 ps bn); [|done|done|by left].
    by rewrite Hu.
  - unfold w1. cbn [fs]. apply lookup_insert_eq.
  - apply (download_binary_hit h ext w1 ps bn c m); try done.
    + rewrite path_exists_child.
      * unfold w1. cbn [fs]. by rewrite lookup_insert_eq.
      * unfold w1. cbn [fs]. by rewrite is_dir_insert_child.
    + unfold w1. cbn [fs]. by rewrite lookup_insert_ne.
Qed.

(** X10.  A directory at the path of the binary, on a stale cache: the
    asset is requested, the target cannot be opened, and [download_binary]
    raises the "Failed to download binary" [RuntimeError] whose cause is
    the [OSError] of the open, although the host delivered the body.  The
    file system is as it was once the cache directory existed. *)
Theorem download_binary_binary_is_directory (w w0 : World)
    (ps bn body : string) (m : Z) :
  get_binary_name h = Return (ps, bn) ->
  Path_mkdir h bin_dir w = (Return tt, w0) ->
  stale h bn (fs w0) ->
  fs w0 !! (bin_dir /: bn) = Some (Dir m) ->
  remote ext (List.length (net_log w0)) (asset_url ps) = Fetched body ->
  exists cause,
    is_OSError cause = true /\
    download_binary h ext w
    = (Raise (ExnFrom RuntimeError
                ("Failed to download binary from " ++ asset_url ps ++ ": "
                 ++ exn_str cause) cause),
       mkWorld (fs w0) (net_log w ++ [asset_url ps])
               (stderr (announced ps w0)) (spawned w0)).
Proof.
  intros Hn Hm Hst%stale_misses Hb Hr.
  pose proof (Path_mkdir_ok h _ _ _ Hm) as (Hd & (Hlog & _) & _).
  exists (os_error h IsADirectoryError (bin_dir /: bn)). split; [done|].
  rewrite (download_binary_stale h ext w w0 ps bn) by done.
  unfold urlretrieve. cbn [announced fs net_log stderr spawned]. rewrite Hr.
  rewrite open_write_child by done. cbn [fs]. rewrite Hb.
  by rewrite Hlog.
Qed.

(** X11.  A directory at the path of the marker, the binary being there:
    reading the marker fails with an [OSError], and [main] reports it and
    returns 1 without a transfer and without starting the binary.  Nothing
    is repaired: the world is as it was once the cache directory existed,
    so every later call fails the same way. *)
Theorem main_marker_is_directory (w w0 : World) (ps bn : string) (x : Node)
    (m : Z) :
  get_binary_name h = Return (ps, bn) ->
  Path_mkdir h bin_dir w = (Return tt, w0) ->
  fs w0 !! (bin_dir /: bn) = Some x ->
  fs w0 !! (bin_dir /: "version") = Some (Dir m) ->
  exists failure,
    is_OSError failure = true /\
    main h ext w
    = (Return 1,
       mkWorld (fs w0) (net_log w)
               (stderr w ++ ["Error: " ++ exn_str failure]) (spawned w)) /\
    download_binary h ext w0 = (Raise failure, w0).
Proof.
  intros Hn Hm Hb Hv.
  pose proof (Path_mkdir_ok h _ _ _ Hm) as (Hd & (Hlog & Herr & Hsp) & _).
  exists (os_error h IsADirectoryError (bin_dir /: "version")).
  split_and!; [done | |].
  - rewrite (main_not_fetched h ext w w0 _
               (download_binary_marker_unreadable h ext w w0 ps bn x m
                  Hn Hm Hb Hv)).
    cbn [is_Exception os_error exn_cls].
    by rewrite Hlog, Herr, Hsp.
  - apply (download_binary_marker_unreadable h ext w0 w0 ps bn x m);
      try done.
    by apply Path_mkdir_existing.
Qed.

(** X6.  [main] starts at most one program: the path [download_binary]
    returned, followed by the arguments of the wrapper, when it returned;
    none when it raised. *)
Theorem main_starts_at_most_one_program (w : World) :
  match download_binary h ext w with
  | (Return p, _) =>
      spawned (snd (main h ext w))
      = (spawned w ++ [[str_of_Path h p] ++ drop 1 (argv h)])%list
  | (Raise _, _) => spawned (snd (main h ext w)) = spawned w
  end.
Proof.
  pose proof (download_binary_spawned h ext w) as Hsp.
  destruct (download_binary h ext w) as [[p|e] w1] eqn:H; cbn [snd] in Hsp.
  - rewrite (main_fetched h ext w w1 p H).
    unfold try_except, subprocess_run, child_command.
    destruct (child ext _ (fs w1)) as [rc|e r]; cbn [snd spawned].
    + by rewrite Hsp.
    + destruct (is_KeyboardInterrupt e); cbn [snd spawned]; by rewrite Hsp.
  - rewrite (main_not_fetched h ext w w1 e H).
    by destruct (is_Exception e).
Qed.

(** X7.  Only the interrupt of the operator is caught around the run of the
    child: any other exception of [subprocess.run], such as the [OSError] of
    a binary that cannot be executed, leaves [main] as it was raised and is
    not turned into an exit status. *)
Theorem main_run_failure_propagates (w w1 : World) (p : Path) (e : exn)
    (reported : option Z) :
  download_binary h ext w = (Return p, w1) ->
  child ext ([str_of_Path h p] ++ drop 1 (argv h)) (fs w1)
  = RunRaised e reported ->
  is_KeyboardInterrupt e = false ->
  fst (main h ext w) = Raise e.
Proof.
  intros H Hc He. rewrite (main_fetched h ext w w1 p H).
  unfold try_except, subprocess_run, child_command. by rewrite Hc, He.
Qed.

End CacheCases.

Lemma download_binary_failed_transfer_keeps_marker_witness :
  download_binary linux_host interrupted_fetch cold_world
  = (Raise (Exn KeyboardInterrupt ""), partial_world) /\
  fs partial_world !! (get_binary_path linux_host /: "version")
  = fs cold_world !! (get_binary_path linux_host /: "version").
Proof.
  apply (download_binary_failed_transfer_keeps_marker linux_host
           interrupted_fetch cold_world made_world partial_world
           "linux-amd64" "gcop-rs" (Exn KeyboardInterrupt "")).
  - reflexivity.
  - reflexivity.
  - left. reflexivity.
  - reflexivity.
Defined.

Lemma download_binary_postcondition_witness :
  let p := get_binary_path linux_host /: "gcop-rs" in
  (p = get_binary_path linux_host /: "gcop-rs" \/
   p = get_binary_path linux_host /: "gcop-rs.exe") /\
  p <> get_binary_path linux_host /: "version" /\
  path_exists (fs warm_world) p = true /\
  exists c m,
    fs warm_world !! (get_binary_path linux_host /: "version")
    = Some (File c m) /\
    is_ascii c = true /\ strip c = __version__.
Proof.
  apply (download_binary_postcondition linux_host serving warm_world
           warm_world (get_binary_path linux_host /: "gcop-rs")).
  - intros c m H. vm_compute in H. injection H as <- _. reflexivity.
  - reflexivity.
Defined.

Lemma download_binary_truncated_binary_accepted_witness :
  exists e' w1,
    download_binary linux_host interrupted_fetch orphan_marker_world
    = (Raise e', w1) /\
    fs w1 !! (get_binary_path linux_host /: "gcop-rs")
    = Some (File "EL" 0x81a4) /\
    download_binary linux_host interrupted_fetch w1
    = (Return (get_binary_path linux_host /: "gcop-rs"), w1).
Proof.
  apply (download_binary_truncated_binary_accepted linux_host
           interrupted_fetch orphan_marker_world orphan_marker_world
           "linux-amd64" "gcop-rs" "0.4.2" "EL" 0x81a4
           (Exn KeyboardInterrupt "")); reflexivity.
Defined.

Lemma download_binary_binary_is_directory_witness :
  exists cause,
    is_OSError cause = true /\
    download_binary linux_host serving dir_binary_world
    = (Raise (ExnFrom RuntimeError
                ("Failed to download binary from " ++ asset_url "linux-amd64"
                 ++ ": " ++ exn_str cause) cause),
       mkWorld (fs dir_binary_world)
               (net_log dir_binary_world ++ [asset_url "linux-amd64"])
               (stderr (announced "linux-amd64" dir_binary_world))
               (spawned dir_binary_world)).
Proof.
  apply (download_binary_binary_is_directory linux_host serving
           dir_binary_world dir_binary_world "linux-amd64" "gcop-rs" "ELF"
           0x41ed); [reflexivity | reflexivity | | reflexivity..].
  right. left. reflexivity.
Defined.

Lemma main_marker_is_directory_witness :
  exists failure,
    is_OSError failure = true /\
    main linux_host serving dir_marker_world
    = (Return 1,
       mkWorld (fs dir_marker_world) (net_log dir_marker_world)
               (stderr dir_marker_world ++ ["Error: " ++ exn_str failure])
               (spawned dir_marker_world)) /\
    download_binary linux_host serving dir_marker_world
    = (Raise failure, dir_marker_world).
Proof.
  apply (main_marker_is_directory linux_host serving dir_marker_world
           dir_marker_world "linux-amd64" "gcop-rs" (File "ELF" 0x81ed)
           0x41ed); reflexivity.
Defined.

Lemma main_run_failure_propagates_witness :
  fst (main linux_host unrunnable cached_world)
  = Raise (Exn OSError "[Errno 8] Exec format error").
Proof.
  apply (main_run_failure_propagates linux_host unrunnable cached_world
           cached_world (get_binary_path linux_host /: "gcop-rs")
           (Exn OSError "[Errno 8] Exec format error") None); reflexivity.
Defined.

(** ** The comparison of the marker *)

Lemma lstrip_all_space (s : string) : all_space s = true -> lstrip s = "".
Proof.
  induction s as [|c s IH]; simpl; [done|].
  intros [Hc Hs]%andb_prop. rewrite Hc. by apply IH.
Qed.

Lemma rstrip_all_space (s : string) : all_space s = true -> rstrip s = "".
Proof.
  induction s as [|c s IH]; simpl; [done|].
  intros [Hc Hs]%andb_prop. by rewrite (IH Hs), Hc.
Qed.

Lemma lstrip_app (v r : string) :
  lstrip (v ++ r)
  = match lstrip v with
    | EmptyString => lstrip r
    | s => s ++ r
    end.
Proof.
  induction v as [|c v IH]; simpl; [done|].
  destruct (isspace c); [exact IH | done].
Qed.

Lemma rstrip_app_all_space (s r : string) :
  all_space r = true -> rstrip (s ++ r) = rstrip s.
Proof.
  intros Hr. induction s as [|c s IH]; simpl.
  - by apply rstrip_all_space.
  - by rewrite IH.
Qed.

(** [str.strip] ignores white space around a string. *)
Lemma strip_padded (l v r : string) :
  all_space l = true -> all_space r = true ->
  strip (l ++ v ++ r) = strip v.
Proof.
  intros Hl Hr. unfold strip.
  rewrite (lstrip_app l), (lstrip_all_space l Hl), (lstrip_app v).
  destruct (lstrip v) as [|c s] eqn:E.
  - by rewrite (lstrip_all_space r Hr).
  - by apply rstrip_app_all_space.
Qed.

(** X8.  The marker is compared after [strip]: a marker that holds the
    expected version with any white space before and after it (a trailing
    line feed, say) is a valid cache, and [download_binary] returns the
    binary without a transfer and without rewriting the marker. *)
Theorem download_binary_padded_marker (h : Host) (ext : Extern) (w : World)
    (ps bn l r : string) (m : Z) :
  get_binary_name h = Return (ps, bn) ->
  path_exists (fs w) (get_binary_path h /: bn) = true ->
  all_space l = true -> all_space r = true ->
  fs w !! (get_binary_path h /: "version")
  = Some (File (l ++ __version__ ++ r) m) ->
  download_binary h ext w = (Return (get_binary_path h /: bn), w).
Proof.
  intros Hn Hb Hl Hr Hv.
  apply (download_binary_hit h ext w ps bn (l ++ __version__ ++ r) m);
    try done.
  by rewrite strip_padded.
Qed.

Lemma download_binary_padded_marker_witness :
  download_binary linux_host serving warm_world
  = (Return (get_binary_path linux_host /: "gcop-rs"), warm_world).
Proof.
  apply (download_binary_padded_marker linux_host serving warm_world
           "linux-amd64" "gcop-rs" "" newline 0x81a4); reflexivity.
Defined.

(** ** Retrying *)

(** X12.  A failed transfer is not remembered.  When the cache directory
    exists, the marker is missing or holds ASCII text that is another
    version, and the transfer raises, [download_binary] raises and the
    next call requests the asset again. *)
Theorem download_binary_retries_after_failure (h : Host) (ext : Extern)
    (w w2 : World) (ps bn : string) (e : exn) :
  get_binary_name h = Return (ps, bn) ->
  is_dir (fs w) (get_binary_path h) = true ->
  (fs w !! (get_binary_path h /: "version") = None \/
   exists c m, fs w !! (get_binary_path h /: "version") = Some (File c m) /\
               is_ascii c = true /\ strip c <> __version__) ->
  urlretrieve h ext (asset_url ps) (get_binary_path h /: bn) (announced ps w)
  = (Raise e, w2) ->
  (exists e', download_binary h ext w = (Raise e', w2)) /\
  net_log (snd (download_binary h ext w2))
  = (net_log w2 ++ [asset_url ps])%list.
Proof.
  intros Hn Hd Hv Hu.
  pose proof (Path_mkdir_existing h _ _ Hd) as Hm.
  pose proof (version_ne_binary h ps bn Hn) as Hne.
  assert (forall f : FS,
            f !! (get_binary_path h /: "version")
            = fs w !! (get_binary_path h /: "version") ->
            misses h bn f) as Hst.
  { intros f Hf. right. rewrite Hf.
    destruct Hv as [Hv | (c & m & Hv & _ & Hs)]; [by left | right; eauto]. }
  split.
  - eexists.
    rewrite (download_binary_stale h ext w w ps bn Hn Hm (Hst _ eq_refl)).
    by rewrite Hu.
  - assert (is_dir (fs w2) (get_binary_path h) = true) as Hd2.
    { destruct (dir_is_stable (get_binary_path h)) as (H1 & H2 & H3).
      pose proof (preserves_urlretrieve h ext _ H1 H3 (asset_url ps)
                    (get_binary_path h /: bn) (announced ps w) Hd) as Hp.
      by rewrite Hu in Hp. }
    apply (download_binary_one_transfer h ext w2 w2 ps bn Hn).
    + by apply Path_mkdir_existing.
    + apply Hst.
      pose proof (urlretrieve_elsewhere h ext (asset_url ps)
                    (get_binary_path h /: bn)
                    (get_binary_path h /: "version") (announced ps w) Hne)
        as Hk.
      by rewrite Hu in Hk.
Qed.

Lemma download_binary_retries_after_failure_witness :
  (exists e', download_binary linux_host unreachable made_world
              = (Raise e', failed_world)) /\
  net_log (snd (download_binary linux_host unreachable failed_world))
  = (net_log failed_world ++ [asset_url "linux-amd64"])%list.
Proof.
  apply (download_binary_retries_after_failure linux_host unreachable
           made_world failed_world "linux-amd64" "gcop-rs"
           (Exn URLError "<urlopen error timed out>")).
  - reflexivity.
  - reflexivity.
  - left. reflexivity.
  - reflexivity.
Defined.

(** X13.  There is no fallback to a cached binary of another version.  When
    the binary exists, the marker holds ASCII text that is another version
    and the release host cannot be reached, [main] returns 1: the cached
    binary is neither run nor changed, and the marker is as it was. *)
Theorem main_no_fallback_to_old_binary (h : Host) (ext : Extern) (w : World)
    (ps bn c : string) (m : Z) (e : exn) :
  get_binary_name h = Return (ps, bn) ->
  path_exists (fs w) (get_binary_path h /: bn) = true ->
  fs w !! (get_binary_path h /: "version") = Some (File c m) ->
  is_ascii c = true ->
  strip c <> __version__ ->
  remote ext (List.length (net_log w)) (asset_url ps) = FetchFailed e None ->
  is_Exception e = true ->
  main h ext w
  = (Return 1,
     mkWorld (fs w) (net_log w ++ [asset_url ps])
       (stderr w
        ++ ["Downloading gcop-rs v" ++ __version__ ++ " for " ++ ps ++ "...";
            "Error: Failed to download binary from " ++ asset_url ps ++ ": "
            ++ exn_str e])
       (spawned w)).
Proof.
  intros Hn Hb Hv Ha Hs Hr He.
  pose proof (exists_child_is_dir _ _ _ Hb) as Hd.
  pose proof (Path_mkdir_existing h _ _ Hd) as Hm.
  assert (misses h bn (fs w)) as Hst by (right; right; eauto).
  assert (download_binary h ext w
          = (Raise (ExnFrom RuntimeError
                      ("Failed to download binary from " ++ asset_url ps
                       ++ ": " ++ exn_str e) e),
             mkWorld (fs w) (net_log w ++ [asset_url ps])
                     (stderr (announced ps w)) (spawned w))) as Hd1.
  { rewrite (download_binary_stale h ext w w ps bn) by done.
    unfold urlretrieve. cbn [announced fs net_log stderr spawned].
    by rewrite Hr, He. }
  rewrite (main_not_fetched h ext w _ _ Hd1).
  cbn [is_Exception exn_cls exn_str announced fs net_log stderr spawned].
  by rewrite stderr_snoc2.
Qed.

Lemma main_no_fallback_to_old_binary_witness :
  fst (main linux_host unreachable stale_world) = Return 1 /\
  fs (snd (main linux_host unreachable stale_world)) = fs stale_world /\
  spawned (snd (main linux_host unreachable stale_world)) = [].
Proof.
  rewrite (main_no_fallback_to_old_binary linux_host unreachable stale_world
             "linux-amd64" "gcop-rs" "0.4.1" 0x81a4
             (Exn URLError "<urlopen error timed out>"));
    [ split_and!; reflexivity | reflexivity | reflexivity | reflexivity
    | reflexivity | by vm_compute | reflexivity | reflexivity ].
Defined.
